(** * OverlayProperties: the JNI bridge of android.hardware.OverlayProperties

    A shallow embedding of [core/jni/android_hardware_OverlayProperties.cpp]
    and the properties of its two capability queries and of its parcel
    serialization.

    The native side owns [gui::OverlayProperties] objects on the C++ heap and
    hands them to the managed side as [jlong] handles; handle [0] is the null
    pointer.  The embedding keeps that shape: a state with the native heap,
    the parcels and the pending Java exception, and every JNI entry point as
    a computation over that state. *)

From Stdlib Require Import ZArith List Lia.
From stdpp Require Import base option gmap list.

Local Open Scope Z_scope.

(** ** Machine integers *)

(** [static_cast<int32_t>(z)]: two's complement wrap-around to 32 bits. *)
Definition static_cast_int32 (z : Z) : Z := (z + 2 ^ 31) `mod` 2 ^ 32 - 2 ^ 31.

Definition INT32_MAX : Z := 2 ^ 31 - 1.

(** The values an [int32_t] can hold. *)
Definition is_int32 (z : Z) : Prop := - 2 ^ 31 <= z <= INT32_MAX.

(** ** Constants of the graphics HAL

    [HAL_PIXEL_FORMAT_RGBA_FP16] and [HAL_DATASPACE_BT2020_PQ] come from the
    system graphics headers, which are not part of this file: the development
    is parametric in them. *)
Class HalConstants := {
  HAL_PIXEL_FORMAT_RGBA_FP16 : Z;
  HAL_DATASPACE_BT2020_PQ : Z
}.

(** ** Data model: [gui::OverlayProperties] *)

(** One element of [combinations]: two [std::vector<int32_t>]. *)
Record Combination := {
  pixelFormats : list Z;
  dataspaces : list Z
}.

Record OverlayProperties := {
  combinations : list Combination;
  supportMixedColorSpaces : bool
}.

(** [new gui::OverlayProperties]: the default-constructed object. *)
Definition OverlayProperties_default : OverlayProperties :=
  {| combinations := []; supportMixedColorSpaces := false |}.

Definition set_combinations (cs : list Combination) (this : OverlayProperties)
  : OverlayProperties :=
  {| combinations := cs; supportMixedColorSpaces := supportMixedColorSpaces this |}.

Definition set_supportMixedColorSpaces (b : bool) (this : OverlayProperties)
  : OverlayProperties :=
  {| combinations := combinations this; supportMixedColorSpaces := b |}.

#[global] Instance Combination_eq_dec : EqDecision Combination.
Proof. solve_decision. Defined.

#[global] Instance OverlayProperties_eq_dec : EqDecision OverlayProperties.
Proof. solve_decision. Defined.

(** Every identifier is an [int32_t] and every vector's size fits the
    [int32_t] count that precedes it on the wire. *)
Definition Combination_valid (c : Combination) : Prop :=
  Forall is_int32 (pixelFormats c) /\ Forall is_int32 (dataspaces c) /\
  Z.of_nat (length (pixelFormats c)) <= INT32_MAX /\
  Z.of_nat (length (dataspaces c)) <= INT32_MAX.

Definition OverlayProperties_valid (d : OverlayProperties) : Prop :=
  Forall Combination_valid (combinations d) /\
  Z.of_nat (length (combinations d)) <= INT32_MAX.

(** ** The C++ standard library pieces the queries use *)

Module std.

(** [std::find(v.begin(), v.end(), value)] as the index of the iterator it
    returns: the first position holding [value], or [v.end()]. *)
Fixpoint find (v : list Z) (value : Z) : nat :=
  match v with
  | [] => 0%nat
  | x :: rest => if decide (x = value) then 0%nat else S (find rest value)
  end.

(** [v.end()]. *)
Definition end_ (v : list Z) : nat := length v.

End std.

(** ** Status codes *)

(** [status_t] of [utils/Errors.h]: [NO_ERROR], the only status the bridge
    names, and the statuses a read of the channel can report. *)
Inductive status_t :=
  | NO_ERROR
  | NOT_ENOUGH_DATA
  | BAD_VALUE
  | BAD_TYPE.

#[global] Instance status_t_eq_dec : EqDecision status_t.
Proof. solve_decision. Defined.

(** ** The marshalling channel *)

(** Modelled from the spec: the Parcel is "an opaque read/write channel with
    ordered primitive and vector operations" whose implementation
    ([binder/Parcel.h]) is not part of this file.  A channel holds the fields
    written and not yet read, oldest first; a field is a boolean-width field
    or a 32-bit integer field. *)
Inductive Prim :=
  | PBool (b : bool)
  | PInt32 (i : Z).

#[global] Instance Prim_eq_dec : EqDecision Prim.
Proof. solve_decision. Defined.

Abbreviation Parcel := (list Prim).

(** Modelled from the spec: an operation of the channel gives a status or a
    value, and the channel after it. *)
Definition ParcelOp (A : Type) : Type := Parcel -> (status_t + A) * Parcel.

(** Modelled from the spec: the operations of the channel are ordered; an
    operation that reports a status ends the sequence with that status. *)
#[global] Instance ParcelOp_ret : MRet ParcelOp :=
  fun A (a : A) p => (inr a, p).

#[global] Instance ParcelOp_bind : MBind ParcelOp :=
  fun A B (k : A -> ParcelOp B) (m : ParcelOp A) p =>
    match m p with
    | (inl e, p') => (inl e, p')
    | (inr a, p') => k a p'
    end.

(** Modelled from the spec: an operation that reports the status [e]. *)
Definition ParcelOp_fail {A} (e : status_t) : ParcelOp A :=
  fun p => (inl e, p).

(** Modelled from the spec: the ordered primitive operations of the channel.
    A write appends one field; a read takes the oldest field, and reports
    [NOT_ENOUGH_DATA] on an exhausted channel and [BAD_TYPE] on a field of
    the other kind. *)
Definition writeBool (val : bool) : ParcelOp unit :=
  fun p => (inr tt, p ++ [PBool val]).

(** Modelled from the spec: writing one integer field. *)
Definition writeInt32 (val : Z) : ParcelOp unit :=
  fun p => (inr tt, p ++ [PInt32 val]).

(** Modelled from the spec: reading one boolean-width field. *)
Definition readBool : ParcelOp bool :=
  fun p =>
    match p with
    | [] => (inl NOT_ENOUGH_DATA, p)
    | PBool b :: rest => (inr b, rest)
    | PInt32 _ :: _ => (inl BAD_TYPE, p)
    end.

(** Modelled from the spec: reading one integer field. *)
Definition readInt32 : ParcelOp Z :=
  fun p =>
    match p with
    | [] => (inl NOT_ENOUGH_DATA, p)
    | PInt32 i :: rest => (inr i, rest)
    | PBool _ :: _ => (inl BAD_TYPE, p)
    end.

(** Modelled from the spec: the vector operations of the channel, "count,
    then that many" elements.  The count is the vector's size as an
    [int32_t]; a negative count read back is reported as [BAD_VALUE]. *)
Fixpoint writeElements {A} (writeElem : A -> ParcelOp unit) (v : list A)
  : ParcelOp unit :=
  match v with
  | [] => mret tt
  | x :: rest => writeElem x;; writeElements writeElem rest
  end.

(** Modelled from the spec: writing a vector, its count first. *)
Definition writeVector {A} (writeElem : A -> ParcelOp unit) (v : list A)
  : ParcelOp unit :=
  writeInt32 (static_cast_int32 (Z.of_nat (length v)));;
  writeElements writeElem v.

(** Modelled from the spec: reading [n] elements, one after the other; the
    first failure ends the read. *)
Fixpoint readElements {A} (readElem : ParcelOp A) (n : nat) : ParcelOp (list A) :=
  match n with
  | O => mret []
  | S n' =>
      x ← readElem;
      rest ← readElements readElem n';
      mret (x :: rest)
  end.

(** Modelled from the spec: reading a vector, its count first. *)
Definition readVector {A} (readElem : ParcelOp A) : ParcelOp (list A) :=
  size ← readInt32;
  if decide (size < 0) then ParcelOp_fail BAD_VALUE
  else readElements readElem (Z.to_nat size).

(** Modelled from the spec: vectors of integer identifiers. *)
Definition writeInt32Vector : list Z -> ParcelOp unit := writeVector writeInt32.

(** Modelled from the spec: reading a vector of integer identifiers. *)
Definition readInt32Vector : ParcelOp (list Z) := readVector readInt32.

(** ** The Parcelable interface

    [gui::OverlayProperties] is an [android::Parcelable]: the bridge calls its
    [writeToParcel] and [readFromParcel] and looks only at the status of the
    latter.  [readFromParcel] fills [this] in place, so it gives back the
    object as it stands when it returns, also on failure. *)
Class Parcelable (T : Type) := {
  writeToParcel : T -> Parcel -> status_t * Parcel;
  readFromParcel : T -> Parcel -> status_t * T * Parcel
}.

(** Modelled from the spec: the wire format of one combination, "pixel-format
    count, then that many integer format identifiers; dataspace count, then
    that many integer dataspace identifiers".  The marshalling code of
    [gui::OverlayProperties] is not part of this file. *)
Definition writeCombination (c : Combination) : ParcelOp unit :=
  writeInt32Vector (pixelFormats c);;
  writeInt32Vector (dataspaces c).

(** Modelled from the spec: reading one combination, in the order it is
    written. *)
Definition readCombination : ParcelOp Combination :=
  formats ← readInt32Vector;
  spaces ← readInt32Vector;
  mret {| pixelFormats := formats; dataspaces := spaces |}.

(** Modelled from the spec: [gui::OverlayProperties::writeToParcel], which is
    not part of this file.  "Flag(s): supportMixedColorSpaces as a single
    boolean-width field.  Combination count: an integer count N.  For each of
    N combinations, in order: [...]". *)
Definition OverlayProperties_writeToParcel (this : OverlayProperties)
  : ParcelOp unit :=
  writeBool (supportMixedColorSpaces this);;
  writeVector writeCombination (combinations this).

(** Modelled from the spec: [gui::OverlayProperties::readFromParcel], which is
    not part of this file.  It reads the fields in the order they are written
    and assigns each one to [this] once it has been read; on a read failure
    it returns the status at once, with [this] as far as it was filled. *)
Definition OverlayProperties_readFromParcel (this : OverlayProperties)
  (parcel : Parcel) : status_t * OverlayProperties * Parcel :=
  match readBool parcel with
  | (inl e, parcel1) => (e, this, parcel1)
  | (inr flag, parcel1) =>
      let this1 := set_supportMixedColorSpaces flag this in
      match readVector readCombination parcel1 with
      | (inl e, parcel2) => (e, this1, parcel2)
      | (inr cs, parcel2) => (NO_ERROR, set_combinations cs this1, parcel2)
      end
  end.

(** The [status_t] a channel operation without a value returns. *)
Definition status_of {A} (r : status_t + A) : status_t :=
  match r with
  | inl e => e
  | inr _ => NO_ERROR
  end.

(** Modelled from the spec: [gui::OverlayProperties] as a [Parcelable], with
    the two methods above. *)
#[global] Instance OverlayProperties_Parcelable : Parcelable OverlayProperties := {
  writeToParcel this parcel :=
    let '(r, parcel') := OverlayProperties_writeToParcel this parcel in
    (status_of r, parcel');
  readFromParcel := OverlayProperties_readFromParcel
}.

(** Modelled from the spec: the fields of one combination in wire order,
    "pixel-format count, then that many integer format identifiers;
    dataspace count, then that many integer dataspace identifiers". *)
Definition Combination_fields (c : Combination) : list Prim :=
  PInt32 (Z.of_nat (length (pixelFormats c))) :: map PInt32 (pixelFormats c) ++
  PInt32 (Z.of_nat (length (dataspaces c))) :: map PInt32 (dataspaces c).

(** Modelled from the spec: the fields of a descriptor in wire order, as one
    flat sequence: the flag, the combination count, then the combinations. *)
Definition OverlayProperties_fields (d : OverlayProperties) : list Prim :=
  PBool (supportMixedColorSpaces d) ::
  PInt32 (Z.of_nat (length (combinations d))) ::
  concat (map Combination_fields (combinations d)).

(** ** The JNI environment *)

Inductive Throwable :=
  | NullPointerException.

(** The native heap of [gui::OverlayProperties] objects by address, the
    native parcels by the Java reference of their [android.os.Parcel], and
    the exception pending in the [JNIEnv]. *)
Record JniState := {
  nativeHeap : gmap Z OverlayProperties;
  parcels : gmap Z Parcel;
  pendingException : option Throwable
}.

Definition set_nativeHeap (h : gmap Z OverlayProperties) (st : JniState) : JniState :=
  {| nativeHeap := h; parcels := parcels st;
     pendingException := pendingException st |}.

Definition set_parcels (ps : gmap Z Parcel) (st : JniState) : JniState :=
  {| nativeHeap := nativeHeap st; parcels := ps;
     pendingException := pendingException st |}.

Definition set_pendingException (e : option Throwable) (st : JniState) : JniState :=
  {| nativeHeap := nativeHeap st; parcels := parcels st;
     pendingException := e |}.

(** A native call: a result and the state after, or nothing when the call
    dereferences a pointer to no live object (undefined behaviour). *)
Definition JNI (A : Type) : Type := JniState -> option (A * JniState).

#[global] Instance JNI_ret : MRet JNI :=
  fun A (a : A) st => Some (a, st).

#[global] Instance JNI_bind : MBind JNI :=
  fun A B (k : A -> JNI B) (m : JNI A) st =>
    match m st with
    | Some (a, st') => k a st'
    | None => None
    end.

(** The null pointer, and the null Java reference. *)
Definition nullptr : Z := 0.

(** [*properties]: the object a non-null pointer points to. *)
Definition load (properties : Z) : JNI OverlayProperties :=
  fun st =>
    match nativeHeap st !! properties with
    | Some obj => Some (obj, st)
    | None => None
    end.

(** [*properties = obj], for a pointer to a live object. *)
Definition store (properties : Z) (obj : OverlayProperties) : JNI unit :=
  fun st =>
    match nativeHeap st !! properties with
    | Some _ => Some (tt, set_nativeHeap (<[properties := obj]> (nativeHeap st)) st)
    | None => None
    end.

(** [new gui::OverlayProperties]: a default-constructed object at an address
    that is not null and holds no live object. *)
Definition new_OverlayProperties : JNI Z :=
  fun st =>
    let p := fresh ({[nullptr]} ∪ dom (nativeHeap st)) in
    Some (p, set_nativeHeap (<[p := OverlayProperties_default]> (nativeHeap st)) st).

(** [delete overlayProperties]: nothing for the null pointer, the end of the
    object's life for a pointer to a live one. *)
Definition delete_OverlayProperties (overlayProperties : Z) : JNI unit :=
  fun st =>
    if decide (overlayProperties = nullptr) then Some (tt, st)
    else
      match nativeHeap st !! overlayProperties with
      | Some _ => Some (tt, set_nativeHeap (delete overlayProperties (nativeHeap st)) st)
      | None => None
      end.

(** [jniThrowNullPointerException(env, nullptr)]. *)
Definition jniThrowNullPointerException : JNI unit :=
  fun st => Some (tt, set_pendingException (Some NullPointerException) st).

(** Modelled from the spec: [parcelForJavaObject] is declared in
    [android_os_Parcel.h] and defined outside this file; the channel of a
    Java reference is either present or absent.  The result is the pointer to
    the native parcel, null for the null reference and for a reference that
    has no native parcel. *)
Definition parcelForJavaObject (obj : Z) : JNI Z :=
  fun st =>
    if decide (obj = 0) then Some (nullptr, st)
    else
      match parcels st !! obj with
      | Some _ => Some (obj, st)
      | None => Some (nullptr, st)
      end.

(** Running a method of the object on the parcel a non-null [Parcel*] points
    to; the parcel keeps what the method did to it. *)
Definition withParcel {A} (parcel : Z) (f : Parcel -> A * Parcel) : JNI A :=
  fun st =>
    match parcels st !! parcel with
    | Some p =>
        let '(a, p') := f p in
        Some (a, set_parcels (<[parcel := p']> (parcels st)) st)
    | None => None
    end.

(** ** The bridge: [android_hardware_OverlayProperties.cpp] *)

Section Bridge.

Context {hal : HalConstants} {par : Parcelable OverlayProperties}.

(** *** Lifecycle *)

Definition destroyOverlayProperties (overlayProperties : Z) : JNI unit :=
  delete_OverlayProperties overlayProperties.

(** *** Accessors *)

(** The test of the loop body on the combination [i]. *)
Definition combination_hasFp16Hdr (i : Combination) : bool :=
  bool_decide (std.find (pixelFormats i)
                 (static_cast_int32 HAL_PIXEL_FORMAT_RGBA_FP16)
               <> std.end_ (pixelFormats i)) &&
  bool_decide (std.find (dataspaces i)
                 (static_cast_int32 HAL_DATASPACE_BT2020_PQ)
               <> std.end_ (dataspaces i)).

(** [for (const auto& i : properties->combinations)]: [true] when the body
    returns [true] at some element, [false] when the loop runs to its end. *)
Fixpoint supportFp16ForHdr_loop (combinations : list Combination) : bool :=
  match combinations with
  | [] => false
  | i :: rest =>
      if combination_hasFp16Hdr i then true
      else supportFp16ForHdr_loop rest
  end.

Definition android_hardware_OverlayProperties_supportFp16ForHdr
  (nativeObject : Z) : JNI bool :=
  let properties := nativeObject in
  if decide (properties <> nullptr) then
    obj ← load properties;
    if supportFp16ForHdr_loop (combinations obj) then mret true
    else mret false
  else mret false.

Definition android_hardware_OverlayProperties_supportMixedColorSpaces
  (nativeObject : Z) : JNI bool :=
  let properties := nativeObject in
  if decide (properties <> nullptr) then
    obj ← load properties;
    if supportMixedColorSpaces obj then mret true
    else mret false
  else mret false.

(** *** Serialization *)

Definition android_hardware_OverlayProperties_write
  (nativeObject : Z) (dest : Z) : JNI unit :=
  parcel ← parcelForJavaObject dest;
  if decide (parcel = nullptr) then
    jniThrowNullPointerException
  else
    let overlayProperties := nativeObject in
    if decide (overlayProperties <> nullptr) then
      obj ← load overlayProperties;
      withParcel parcel (writeToParcel obj);;
      mret tt
    else mret tt.

(** [overlayProperties->readFromParcel(parcel)]: the object is filled in
    place and the parcel read; the result is the status. *)
Definition call_readFromParcel (overlayProperties parcel : Z) : JNI status_t :=
  obj ← load overlayProperties;
  r ← withParcel parcel (fun p =>
         let '(status, obj', p') := readFromParcel obj p in
         ((status, obj'), p'));
  store overlayProperties r.2;;
  mret r.1.

Definition android_hardware_OverlayProperties_read (in_ : Z) : JNI Z :=
  parcel ← parcelForJavaObject in_;
  if decide (parcel = nullptr) then
    jniThrowNullPointerException;;
    mret 0
  else
    overlayProperties ← new_OverlayProperties;
    status ← call_readFromParcel overlayProperties parcel;
    if decide (status <> NO_ERROR) then
      delete_OverlayProperties overlayProperties;;
      mret 0
    else mret overlayProperties.

End Bridge.

(** The values the constants have in the Android graphics headers:
    [HAL_PIXEL_FORMAT_RGBA_FP16 = 0x16] and [HAL_DATASPACE_BT2020_PQ =
    STANDARD_BT2020 | TRANSFER_ST2084 | RANGE_FULL]. *)
Definition android_hal : HalConstants := {|
  HAL_PIXEL_FORMAT_RGBA_FP16 := 22;
  HAL_DATASPACE_BT2020_PQ :=
    Z.lor (Z.shiftl 6 16) (Z.lor (Z.shiftl 7 22) (Z.shiftl 1 27))
|}.

(** Two more identifiers of the same headers, for examples:
    [HAL_PIXEL_FORMAT_RGBA_8888] and [HAL_DATASPACE_V0_SRGB]. *)
Definition HAL_PIXEL_FORMAT_RGBA_8888 : Z := 1.
Definition HAL_DATASPACE_V0_SRGB : Z :=
  Z.lor (Z.shiftl 1 16) (Z.lor (Z.shiftl 2 22) (Z.shiftl 1 27)).

(** ** What the spec says the HDR query decides *)

(** The identifiers the query looks for, as the [int32_t] values it compares
    the vector elements with. *)
Definition FP16_format {hal : HalConstants} : Z :=
  static_cast_int32 HAL_PIXEL_FORMAT_RGBA_FP16.

Definition BT2020_PQ_dataspace {hal : HalConstants} : Z :=
  static_cast_int32 HAL_DATASPACE_BT2020_PQ.

(** "There exists at least one Combination in combinations whose pixelFormats
    contains the 16-bit-floating-point RGBA format identifier AND whose
    dataspaces contains the BT.2020 Perceptual-Quantizer dataspace
    identifier", both in the same entry. *)
Definition has_Fp16Hdr_combination {hal : HalConstants} (d : OverlayProperties)
  : Prop :=
  exists c, c ∈ combinations d /\
            FP16_format ∈ pixelFormats c /\
            BT2020_PQ_dataspace ∈ dataspaces c.

(** [d'] is [d] with its combinations in another order and, inside each
    combination, the formats and the dataspaces in another order. *)
Definition Combination_reordered (c c' : Combination) : Prop :=
  pixelFormats c ≡ₚ pixelFormats c' /\ dataspaces c ≡ₚ dataspaces c'.

Definition OverlayProperties_reordered (d d' : OverlayProperties) : Prop :=
  (exists cs, combinations d ≡ₚ cs /\
              Forall2 Combination_reordered cs (combinations d')) /\
  supportMixedColorSpaces d = supportMixedColorSpaces d'.

(** A state for examples: one live descriptor at address [p] and one parcel
    at reference [r]. *)
Definition example_state (p : Z) (d : OverlayProperties) (r : Z) (ch : Parcel)
  : JniState :=
  {| nativeHeap := {[p := d]}; parcels := {[r := ch]};
     pendingException := None |}.

(** A state with no native object, no parcel and no pending exception. *)
Definition initial_state : JniState :=
  {| nativeHeap := ∅; parcels := ∅; pendingException := None |}.

(** Descriptors for examples.  FP16 comes with sRGB and BT.2020 PQ comes with
    RGBA 8888, never both in one combination. *)
Definition cross_combination_descriptor : OverlayProperties :=
  {| combinations :=
       [ {| pixelFormats := [22]; dataspaces := [HAL_DATASPACE_V0_SRGB] |};
         {| pixelFormats := [HAL_PIXEL_FORMAT_RGBA_8888];
            dataspaces := [163971072] |} ];
     supportMixedColorSpaces := false |}.

(** Two combinations, with three formats and with none, and the flag set. *)
Definition two_combination_descriptor : OverlayProperties :=
  {| combinations :=
       [ {| pixelFormats := [22; HAL_PIXEL_FORMAT_RGBA_8888; 22];
            dataspaces := [163971072; HAL_DATASPACE_V0_SRGB] |};
         {| pixelFormats := []; dataspaces := [HAL_DATASPACE_V0_SRGB] |} ];
     supportMixedColorSpaces := true |}.

(** The same descriptor with everything in another order. *)
Definition two_combination_descriptor_reordered : OverlayProperties :=
  {| combinations :=
       [ {| pixelFormats := []; dataspaces := [HAL_DATASPACE_V0_SRGB] |};
         {| pixelFormats := [HAL_PIXEL_FORMAT_RGBA_8888; 22; 22];
            dataspaces := [HAL_DATASPACE_V0_SRGB; 163971072] |} ];
     supportMixedColorSpaces := true |}.

(** States for examples: a live descriptor at address 7 and a channel at
    reference 1, empty or holding a stream that stops after a combination
    count of 2. *)
Definition cross_combination_state : JniState :=
  example_state 7 cross_combination_descriptor 1 [].

Definition two_combination_state : JniState :=
  example_state 7 two_combination_descriptor 1 [].

Definition reordered_state : JniState :=
  example_state 9 two_combination_descriptor_reordered 1 [].

Definition fresh_descriptor_state : JniState :=
  example_state 7 OverlayProperties_default 1 [].

Definition truncated_stream : Parcel := [PBool true; PInt32 2].

Definition truncated_stream_state : JniState :=
  example_state 7 two_combination_descriptor 1 truncated_stream.

(** ** Reading a stream that was cut short *)

(** A channel operation ends with a status that is not [NO_ERROR]. *)
Definition fails {A} (r : (status_t + A) * Parcel) : Prop :=
  exists e p, r = (inl e, p) /\ e <> NO_ERROR.

(** [m] reads the value [a] from the fields [l], and leaves what follows. *)
Definition reads_back {A} (m : ParcelOp A) (l : list Prim) (a : A) : Prop :=
  forall rest, m (l ++ rest) = (inr a, rest).

(** [m] fails on every stream that stops inside the fields [l]. *)
Definition fails_when_truncated {A} (m : ParcelOp A) (l : list Prim) : Prop :=
  forall s t, l = s ++ t -> t <> [] -> fails (m s).

(** ** Descriptors that declare more *)

(** Every format and every dataspace of [c] is also in [c']. *)
Definition Combination_covers (c c' : Combination) : Prop :=
  pixelFormats c ⊆ pixelFormats c' /\ dataspaces c ⊆ dataspaces c'.

(** Every combination of [d] is covered by some combination of [d']. *)
Definition OverlayProperties_covers (d d' : OverlayProperties) : Prop :=
  forall c, c ∈ combinations d ->
            exists c', c' ∈ combinations d' /\ Combination_covers c c'.

(** One combination that holds everything the two combinations of
    [two_combination_descriptor] hold, and more. *)
Definition merged_descriptor : OverlayProperties :=
  {| combinations :=
       [ {| pixelFormats := [HAL_PIXEL_FORMAT_RGBA_8888; 22; 43];
            dataspaces := [HAL_DATASPACE_V0_SRGB; 163971072] |} ];
     supportMixedColorSpaces := false |}.

(** [two_combination_descriptor] with a combination and some identifiers
    repeated. *)
Definition repeated_descriptor : OverlayProperties :=
  {| combinations :=
       [ {| pixelFormats := []; dataspaces := [HAL_DATASPACE_V0_SRGB] |};
         {| pixelFormats := [HAL_PIXEL_FORMAT_RGBA_8888; 22];
            dataspaces := [163971072; HAL_DATASPACE_V0_SRGB; 163971072] |};
         {| pixelFormats := []; dataspaces := [HAL_DATASPACE_V0_SRGB] |} ];
     supportMixedColorSpaces := false |}.

Definition merged_state : JniState :=
  example_state 9 merged_descriptor 1 [].

Definition repeated_state : JniState :=
  example_state 9 repeated_descriptor 1 [].

(** A channel that holds two descriptors, one after the other. *)
Definition two_descriptor_stream : Parcel :=
  OverlayProperties_fields two_combination_descriptor ++
  OverlayProperties_fields cross_combination_descriptor.

Definition two_descriptor_stream_state : JniState :=
  example_state 7 two_combination_descriptor 1 two_descriptor_stream.

(** A [Parcelable] whose [writeToParcel] reports a failure after it has
    written one field. *)
Definition failing_Parcelable : Parcelable OverlayProperties := {|
  writeToParcel _ parcel := (BAD_VALUE, parcel ++ [PBool false]);
  readFromParcel this parcel := (BAD_VALUE, this, parcel)
|}.

(** * Properties *)

(** ** The scan *)

Lemma std_find_end (v : list Z) (value : Z) :
  std.find v value <> std.end_ v <-> value ∈ v.
Proof.
  unfold std.end_. induction v as [|x v IH]; simpl.
  - split; [congruence | intros H; inversion H].
  - destruct (decide (x = value)) as [->|Hne].
    + split; [intros _; left | intros _; lia].
    + rewrite elem_of_cons. split.
      * intros H. right. apply IH. lia.
      * intros [->|H]; [congruence|]. apply IH in H. lia.
Qed.

Lemma std_find_le (v : list Z) (value : Z) :
  (std.find v value <= std.end_ v)%nat.
Proof.
  unfold std.end_. induction v as [|x v IH]; simpl; [lia|].
  destruct (decide (x = value)); lia.
Qed.

Section Queries.

Context {hal : HalConstants}.

Lemma combination_hasFp16Hdr_spec (c : Combination) :
  combination_hasFp16Hdr c = true <->
  FP16_format ∈ pixelFormats c /\ BT2020_PQ_dataspace ∈ dataspaces c.
Proof.
  unfold combination_hasFp16Hdr, FP16_format, BT2020_PQ_dataspace.
  rewrite andb_true_iff, !bool_decide_eq_true, !std_find_end. reflexivity.
Qed.

Lemma supportFp16ForHdr_loop_spec (cs : list Combination) :
  supportFp16ForHdr_loop cs = true <->
  exists c, c ∈ cs /\ combination_hasFp16Hdr c = true.
Proof.
  induction cs as [|i rest IH]; simpl.
  - split; [discriminate | intros (c & Hc & _); inversion Hc].
  - destruct (combination_hasFp16Hdr i) eqn:Hi.
    + split; [intros _; exists i; split; [left | exact Hi] | reflexivity].
    + rewrite IH. split.
      * intros (c & Hc & Hb). exists c. split; [right; exact Hc | exact Hb].
      * intros (c & Hc & Hb). apply elem_of_cons in Hc as [->|Hc].
        -- congruence.
        -- exists c. auto.
Qed.

(** The query on a live descriptor: it returns, leaves the state as it is,
    and its result is the result of the loop. *)
Lemma supportFp16ForHdr_live (st : JniState) (nativeObject : Z)
  (d : OverlayProperties) :
  nativeObject <> nullptr ->
  nativeHeap st !! nativeObject = Some d ->
  android_hardware_OverlayProperties_supportFp16ForHdr nativeObject st =
    Some (supportFp16ForHdr_loop (combinations d), st).
Proof.
  intros Hnn Hd. unfold android_hardware_OverlayProperties_supportFp16ForHdr.
  destruct (decide (nativeObject <> nullptr)) as [_|Hn]; [|contradiction].
  unfold mbind, JNI_bind, load. rewrite Hd.
  destruct (supportFp16ForHdr_loop (combinations d)); reflexivity.
Qed.

Lemma supportMixedColorSpaces_live (st : JniState) (nativeObject : Z)
  (d : OverlayProperties) :
  nativeObject <> nullptr ->
  nativeHeap st !! nativeObject = Some d ->
  android_hardware_OverlayProperties_supportMixedColorSpaces nativeObject st =
    Some (supportMixedColorSpaces d, st).
Proof.
  intros Hnn Hd.
  unfold android_hardware_OverlayProperties_supportMixedColorSpaces.
  destruct (decide (nativeObject <> nullptr)) as [_|Hn]; [|contradiction].
  unfold mbind, JNI_bind, load. rewrite Hd.
  destruct (supportMixedColorSpaces d); reflexivity.
Qed.

Lemma supportFp16ForHdr_null (st : JniState) :
  android_hardware_OverlayProperties_supportFp16ForHdr nullptr st =
    Some (false, st).
Proof. reflexivity. Qed.

Lemma supportMixedColorSpaces_null (st : JniState) :
  android_hardware_OverlayProperties_supportMixedColorSpaces nullptr st =
    Some (false, st).
Proof. reflexivity. Qed.

End Queries.

Section QueryClaims.

Context {hal : HalConstants}.

(** C1: on a live descriptor [d] the HDR query returns [true] exactly when
    some single combination of [d] holds both the FP16 format and the
    BT.2020 PQ dataspace; a descriptor whose two combinations pair FP16
    with another dataspace and PQ with another format yields [false]. *)
Theorem supportFp16ForHdr_iff_same_combination
  (st : JniState) (nativeObject : Z) (d : OverlayProperties) :
  nativeObject <> nullptr ->
  nativeHeap st !! nativeObject = Some d ->
  (exists b,
      android_hardware_OverlayProperties_supportFp16ForHdr nativeObject st =
        Some (b, st) /\
      (b = true <-> has_Fp16Hdr_combination d)) /\
  (forall format dataspace,
      format <> FP16_format ->
      dataspace <> BT2020_PQ_dataspace ->
      combinations d =
        [ {| pixelFormats := [FP16_format]; dataspaces := [dataspace] |};
          {| pixelFormats := [format]; dataspaces := [BT2020_PQ_dataspace] |} ] ->
      android_hardware_OverlayProperties_supportFp16ForHdr nativeObject st =
        Some (false, st)).
Proof.
  intros Hnn Hd. rewrite (supportFp16ForHdr_live st nativeObject d Hnn Hd).
  assert (Hspec : supportFp16ForHdr_loop (combinations d) = true <->
                  has_Fp16Hdr_combination d).
  { rewrite supportFp16ForHdr_loop_spec. unfold has_Fp16Hdr_combination.
    split; intros (c & Hc & H); exists c; split; trivial;
      apply combination_hasFp16Hdr_spec; exact H. }
  split.
  - eexists; split; [reflexivity | exact Hspec].
  - intros format dataspace Hf Hs Hcs. do 2 f_equal.
    apply not_true_is_false. rewrite Hspec.
    intros (c & Hc & Hpf & Hds). rewrite Hcs in Hc.
    apply elem_of_cons in Hc as [->|Hc]; simpl in *.
    + apply list_elem_of_singleton in Hds. congruence.
    + apply list_elem_of_singleton in Hc as ->. simpl in *.
      apply list_elem_of_singleton in Hpf. congruence.
Qed.

(** C5: on a live descriptor the mixed-colour-space query returns the
    value of its [supportMixedColorSpaces] flag, and on the null handle it
    returns [false]. *)
Theorem supportMixedColorSpaces_is_flag :
  (forall st nativeObject d,
      nativeObject <> nullptr ->
      nativeHeap st !! nativeObject = Some d ->
      android_hardware_OverlayProperties_supportMixedColorSpaces nativeObject st =
        Some (supportMixedColorSpaces d, st)) /\
  (forall st,
      android_hardware_OverlayProperties_supportMixedColorSpaces nullptr st =
        Some (false, st)).
Proof.
  split.
  - intros st nativeObject d. apply supportMixedColorSpaces_live.
  - apply supportMixedColorSpaces_null.
Qed.

(** C6: a descriptor with zero combinations is valid, and the HDR query on
    it returns [false]. *)
Theorem empty_descriptor_valid_no_capability (d : OverlayProperties) :
  combinations d = [] ->
  OverlayProperties_valid d /\
  forall st nativeObject,
    nativeObject <> nullptr ->
    nativeHeap st !! nativeObject = Some d ->
    android_hardware_OverlayProperties_supportFp16ForHdr nativeObject st =
      Some (false, st).
Proof.
  intros Hcs. split.
  - unfold OverlayProperties_valid. rewrite Hcs. split.
    + constructor.
    + unfold INT32_MAX. simpl. lia.
  - intros st nativeObject Hnn Hd.
    rewrite (supportFp16ForHdr_live st nativeObject d Hnn Hd), Hcs.
    reflexivity.
Qed.

Lemma combination_hasFp16Hdr_reordered (c c' : Combination) :
  Combination_reordered c c' ->
  combination_hasFp16Hdr c = combination_hasFp16Hdr c'.
Proof.
  intros [Hpf Hds]. apply eq_true_iff_eq.
  rewrite !combination_hasFp16Hdr_spec, Hpf, Hds. reflexivity.
Qed.

Lemma supportFp16ForHdr_loop_Permutation (cs cs' : list Combination) :
  cs ≡ₚ cs' -> supportFp16ForHdr_loop cs = supportFp16ForHdr_loop cs'.
Proof.
  intros Hp. apply eq_true_iff_eq. rewrite !supportFp16ForHdr_loop_spec.
  split; intros (c & Hc & Hb); exists c; split; trivial.
  - rewrite <- Hp. exact Hc.
  - rewrite Hp. exact Hc.
Qed.

Lemma supportFp16ForHdr_loop_Forall2 (cs cs' : list Combination) :
  Forall2 Combination_reordered cs cs' ->
  supportFp16ForHdr_loop cs = supportFp16ForHdr_loop cs'.
Proof.
  induction 1 as [|c c' cs cs' Hc _ IH]; simpl; [reflexivity|].
  rewrite (combination_hasFp16Hdr_reordered c c' Hc), IH. reflexivity.
Qed.

(** C8: reordering the combinations of a descriptor, and the formats and
    dataspaces inside each combination, changes the result of neither
    query. *)
Theorem queries_order_insensitive
  (st st' : JniState) (nativeObject nativeObject' : Z)
  (d d' : OverlayProperties) :
  nativeObject <> nullptr ->
  nativeObject' <> nullptr ->
  nativeHeap st !! nativeObject = Some d ->
  nativeHeap st' !! nativeObject' = Some d' ->
  OverlayProperties_reordered d d' ->
  fst <$> android_hardware_OverlayProperties_supportFp16ForHdr nativeObject st =
    fst <$> android_hardware_OverlayProperties_supportFp16ForHdr nativeObject' st' /\
  fst <$> android_hardware_OverlayProperties_supportMixedColorSpaces nativeObject st =
    fst <$> android_hardware_OverlayProperties_supportMixedColorSpaces nativeObject' st' /\
  is_Some (android_hardware_OverlayProperties_supportFp16ForHdr nativeObject st) /\
  is_Some (android_hardware_OverlayProperties_supportMixedColorSpaces nativeObject st).
Proof.
  intros Hnn Hnn' Hd Hd' [(cs & Hperm & Hall) Hflag].
  rewrite (supportFp16ForHdr_live st nativeObject d Hnn Hd).
  rewrite (supportFp16ForHdr_live st' nativeObject' d' Hnn' Hd').
  rewrite (supportMixedColorSpaces_live st nativeObject d Hnn Hd).
  rewrite (supportMixedColorSpaces_live st' nativeObject' d' Hnn' Hd').
  simpl. repeat split; eauto.
  - rewrite (supportFp16ForHdr_loop_Permutation _ _ Hperm).
    rewrite (supportFp16ForHdr_loop_Forall2 _ _ Hall). reflexivity.
  - rewrite Hflag. reflexivity.
Qed.

(** C9: both queries are read-only: on the null handle and on a live
    descriptor they return a result and leave the whole state, so every
    field of the descriptor, as it was. *)
Theorem queries_read_only (st : JniState) (nativeObject : Z) :
  nativeObject = nullptr \/ is_Some (nativeHeap st !! nativeObject) ->
  (exists b,
      android_hardware_OverlayProperties_supportFp16ForHdr nativeObject st =
        Some (b, st)) /\
  (exists b,
      android_hardware_OverlayProperties_supportMixedColorSpaces nativeObject st =
        Some (b, st)).
Proof.
  intros [->|[d Hd]].
  - split; exists false; reflexivity.
  - destruct (decide (nativeObject = nullptr)) as [->|Hnn].
    + split; exists false; reflexivity.
    + rewrite (supportFp16ForHdr_live st nativeObject d Hnn Hd).
      rewrite (supportMixedColorSpaces_live st nativeObject d Hnn Hd).
      split; eexists; reflexivity.
Qed.

End QueryClaims.

(** ** The wire format *)

Lemma static_cast_int32_id (z : Z) : is_int32 z -> static_cast_int32 z = z.
Proof.
  unfold is_int32, static_cast_int32, INT32_MAX. intros H.
  rewrite Z.mod_small by lia. lia.
Qed.

Lemma static_cast_int32_length {A} (v : list A) :
  Z.of_nat (length v) <= INT32_MAX ->
  static_cast_int32 (Z.of_nat (length v)) = Z.of_nat (length v).
Proof.
  intros H. apply static_cast_int32_id. unfold is_int32, INT32_MAX in *. lia.
Qed.

Section Vectors.

Context {A : Type} (fields : A -> list Prim).

(** Writing: every element appends its fields. *)
Lemma writeElements_fields (writeElem : A -> ParcelOp unit) (v : list A) :
  (forall x p, writeElem x p = (inr tt, p ++ fields x)) ->
  forall p, writeElements writeElem v p = (inr tt, p ++ concat (map fields v)).
Proof.
  intros Hw. induction v as [|x v IH]; intros p; simpl.
  - rewrite app_nil_r. reflexivity.
  - unfold mbind, ParcelOp_bind. rewrite Hw, IH, <- app_assoc. reflexivity.
Qed.

Lemma writeVector_fields (writeElem : A -> ParcelOp unit) (v : list A) :
  (forall x p, writeElem x p = (inr tt, p ++ fields x)) ->
  Z.of_nat (length v) <= INT32_MAX ->
  forall p, writeVector writeElem v p =
              (inr tt, p ++ PInt32 (Z.of_nat (length v)) :: concat (map fields v)).
Proof.
  intros Hw Hlen p. unfold writeVector, mbind, ParcelOp_bind, writeInt32.
  rewrite (writeElements_fields writeElem v Hw), static_cast_int32_length by exact Hlen.
  rewrite <- app_assoc. reflexivity.
Qed.

(** Reading: every element is read back from its own fields. *)
Lemma readElements_fields (readElem : ParcelOp A) (v : list A) :
  (forall x rest, readElem (fields x ++ rest) = (inr x, rest)) ->
  forall rest,
    readElements readElem (length v) (concat (map fields v) ++ rest) =
      (inr v, rest).
Proof.
  intros Hr. induction v as [|x v IH]; intros rest; simpl.
  - reflexivity.
  - unfold mbind, ParcelOp_bind. rewrite <- app_assoc, Hr, IH. reflexivity.
Qed.

Lemma readVector_fields (readElem : ParcelOp A) (v : list A) :
  (forall x rest, readElem (fields x ++ rest) = (inr x, rest)) ->
  forall rest,
    readVector readElem
      (PInt32 (Z.of_nat (length v)) :: concat (map fields v) ++ rest) =
      (inr v, rest).
Proof.
  intros Hr rest. unfold readVector, mbind, ParcelOp_bind. simpl.
  destruct (decide (Z.of_nat (length v) < 0)) as [Hneg|_]; [lia|].
  rewrite Nat2Z.id. apply readElements_fields. exact Hr.
Qed.

End Vectors.

Lemma concat_map_singleton {A B} (f : A -> B) (v : list A) :
  concat (map (fun x => [f x]) v) = map f v.
Proof. induction v as [|x v IH]; simpl; [reflexivity | rewrite IH; reflexivity]. Qed.

Lemma writeInt32Vector_fields (v : list Z) (p : Parcel) :
  Z.of_nat (length v) <= INT32_MAX ->
  writeInt32Vector v p =
    (inr tt, p ++ PInt32 (Z.of_nat (length v)) :: map PInt32 v).
Proof.
  intros Hlen. unfold writeInt32Vector.
  rewrite (writeVector_fields (fun x => [PInt32 x])) by (trivial; reflexivity).
  rewrite concat_map_singleton. reflexivity.
Qed.

Lemma readInt32Vector_fields (v : list Z) (rest : Parcel) :
  readInt32Vector (PInt32 (Z.of_nat (length v)) :: map PInt32 v ++ rest) =
    (inr v, rest).
Proof.
  unfold readInt32Vector. rewrite <- (concat_map_singleton PInt32 v).
  apply (readVector_fields (fun x => [PInt32 x])). reflexivity.
Qed.

Lemma writeCombination_fields (c : Combination) (p : Parcel) :
  Combination_valid c ->
  writeCombination c p = (inr tt, p ++ Combination_fields c).
Proof.
  intros (_ & _ & Hpf & Hds). unfold writeCombination, mbind, ParcelOp_bind.
  rewrite writeInt32Vector_fields by exact Hpf.
  rewrite writeInt32Vector_fields by exact Hds.
  unfold Combination_fields. rewrite <- app_assoc. reflexivity.
Qed.

Lemma readCombination_fields (c : Combination) (rest : Parcel) :
  readCombination (Combination_fields c ++ rest) = (inr c, rest).
Proof.
  unfold readCombination, Combination_fields, mbind, ParcelOp_bind.
  rewrite <- app_comm_cons, <- app_assoc, readInt32Vector_fields.
  rewrite <- app_comm_cons, readInt32Vector_fields.
  destruct c; reflexivity.
Qed.

(** Writing the combinations needs each of them valid, so the generic vector
    lemma is redone under that restriction. *)
Lemma writeElements_combinations (cs : list Combination) :
  Forall Combination_valid cs ->
  forall p, writeElements writeCombination cs p =
              (inr tt, p ++ concat (map Combination_fields cs)).
Proof.
  induction 1 as [|c cs Hc _ IH]; intros p; simpl.
  - rewrite app_nil_r. reflexivity.
  - unfold mbind, ParcelOp_bind.
    rewrite writeCombination_fields by exact Hc.
    rewrite IH, <- app_assoc. reflexivity.
Qed.

Lemma OverlayProperties_writeToParcel_fields (d : OverlayProperties) (p : Parcel) :
  OverlayProperties_valid d ->
  OverlayProperties_writeToParcel d p = (inr tt, p ++ OverlayProperties_fields d).
Proof.
  intros [Hcs Hlen].
  unfold OverlayProperties_writeToParcel, writeVector, mbind, ParcelOp_bind,
    writeBool, writeInt32.
  rewrite writeElements_combinations by exact Hcs.
  rewrite static_cast_int32_length by exact Hlen.
  unfold OverlayProperties_fields. rewrite <- !app_assoc. reflexivity.
Qed.

Lemma OverlayProperties_readFromParcel_fields
  (this d : OverlayProperties) (rest : Parcel) :
  OverlayProperties_readFromParcel this (OverlayProperties_fields d ++ rest) =
    (NO_ERROR, d, rest).
Proof.
  unfold OverlayProperties_readFromParcel, OverlayProperties_fields. simpl.
  rewrite (readVector_fields Combination_fields) by apply readCombination_fields.
  destruct d; reflexivity.
Qed.

(** ** The serialization entry points *)

(** Projections of an updated state. *)
Ltac jni_simpl :=
  cbn [set_nativeHeap set_parcels set_pendingException
       nativeHeap parcels pendingException fst snd].

Section SerializationBridge.

Context {par : Parcelable OverlayProperties}.

Lemma parcelForJavaObject_present (st : JniState) (obj : Z) (ch : Parcel) :
  obj <> 0 ->
  parcels st !! obj = Some ch ->
  parcelForJavaObject obj st = Some (obj, st).
Proof.
  intros Hobj Hch. unfold parcelForJavaObject.
  destruct (decide (obj = 0)); [contradiction|]. rewrite Hch. reflexivity.
Qed.

(** The channel of a Java reference is absent. *)
Lemma parcelForJavaObject_absent (st : JniState) (obj : Z) :
  obj = 0 \/ parcels st !! obj = None ->
  parcelForJavaObject obj st = Some (nullptr, st).
Proof.
  intros H. unfold parcelForJavaObject.
  destruct (decide (obj = 0)); [reflexivity|].
  destruct H as [? | ->]; [contradiction | reflexivity].
Qed.

Lemma parcelForJavaObject_total (st : JniState) (obj : Z) :
  exists parcel,
    parcelForJavaObject obj st = Some (parcel, st) /\
    (parcel = nullptr \/ parcel = obj /\ is_Some (parcels st !! obj)).
Proof.
  unfold parcelForJavaObject. destruct (decide (obj = 0)); [eauto|].
  destruct (parcels st !! obj) eqn:E; eauto.
Qed.

(** Writing the null descriptor. *)
Lemma write_null (st : JniState) (dest : Z) :
  android_hardware_OverlayProperties_write nullptr dest st =
    Some (tt, if decide (dest = 0 \/ parcels st !! dest = None)
              then set_pendingException (Some NullPointerException) st
              else st).
Proof.
  unfold android_hardware_OverlayProperties_write, mbind, JNI_bind.
  destruct (decide (dest = 0 \/ parcels st !! dest = None)) as [Habs|Habs].
  - rewrite (parcelForJavaObject_absent st dest Habs). reflexivity.
  - destruct (parcels st !! dest) as [ch|] eqn:Hch; [|tauto].
    rewrite (parcelForJavaObject_present st dest ch) by tauto.
    destruct (decide (dest = nullptr)); [tauto | reflexivity].
Qed.

(** Writing a live descriptor to a present channel. *)
Lemma write_live (st : JniState) (nativeObject dest : Z)
  (d : OverlayProperties) (ch : Parcel) :
  nativeObject <> nullptr ->
  dest <> 0 ->
  nativeHeap st !! nativeObject = Some d ->
  parcels st !! dest = Some ch ->
  android_hardware_OverlayProperties_write nativeObject dest st =
    Some (tt, set_parcels (<[dest := (writeToParcel d ch).2]> (parcels st)) st).
Proof.
  intros Hnn Hdest Hd Hch.
  unfold android_hardware_OverlayProperties_write, mbind, JNI_bind.
  rewrite (parcelForJavaObject_present st dest ch Hdest Hch).
  destruct (decide (dest = nullptr)); [contradiction|].
  destruct (decide (nativeObject <> nullptr)); [|contradiction].
  unfold load, withParcel. rewrite Hd, Hch.
  destruct (writeToParcel d ch) as [s ch']. reflexivity.
Qed.

(** Reading with the channel absent. *)
Lemma read_absent (st : JniState) (in_ : Z) :
  in_ = 0 \/ parcels st !! in_ = None ->
  android_hardware_OverlayProperties_read in_ st =
    Some (0, set_pendingException (Some NullPointerException) st).
Proof.
  intros Habs. unfold android_hardware_OverlayProperties_read, mbind, JNI_bind.
  rewrite (parcelForJavaObject_absent st in_ Habs). reflexivity.
Qed.

(** The address [new] gives. *)
Lemma new_address_fresh (st : JniState) :
  let p := fresh ({[nullptr]} ∪ dom (nativeHeap st)) in
  p <> nullptr /\ nativeHeap st !! p = None.
Proof.
  intros p.
  pose proof (is_fresh ({[nullptr]} ∪ dom (nativeHeap st))) as Hfresh.
  fold p in Hfresh. split.
  - intros Hp. apply Hfresh. set_solver.
  - apply not_elem_of_dom. set_solver.
Qed.

(** Reading from a present channel: the new object is filled by
    [readFromParcel]; it is handed out when the status is [NO_ERROR] and
    deleted otherwise. *)
Lemma read_present (st : JniState) (in_ : Z) (ch : Parcel) :
  in_ <> 0 ->
  parcels st !! in_ = Some ch ->
  let p := fresh ({[nullptr]} ∪ dom (nativeHeap st)) in
  let r := readFromParcel OverlayProperties_default ch in
  android_hardware_OverlayProperties_read in_ st =
    if decide (r.1.1 <> NO_ERROR) then
      Some (0, set_parcels (<[in_ := r.2]> (parcels st)) st)
    else
      Some (p, set_nativeHeap (<[p := r.1.2]> (nativeHeap st))
                 (set_parcels (<[in_ := r.2]> (parcels st)) st)).
Proof.
  intros Hin Hch p r.
  destruct (new_address_fresh st) as [Hp Hfree]. fold p in Hp, Hfree.
  unfold android_hardware_OverlayProperties_read, mbind, JNI_bind.
  rewrite (parcelForJavaObject_present st in_ ch Hin Hch).
  destruct (decide (in_ = nullptr)); [contradiction|].
  unfold new_OverlayProperties. fold p.
  unfold call_readFromParcel, mbind, JNI_bind, load, withParcel, store.
  jni_simpl. rewrite lookup_insert_eq. jni_simpl. rewrite Hch. fold r.
  destruct r as [[status obj'] ch']. jni_simpl.
  rewrite lookup_insert_eq. jni_simpl.
  rewrite insert_insert_eq. unfold mret, JNI_ret.
  destruct (decide (status <> NO_ERROR)) as [Hs|Hs].
  - unfold delete_OverlayProperties. jni_simpl.
    destruct (decide (p = nullptr)); [contradiction|].
    rewrite lookup_insert_eq, delete_insert_id by exact Hfree. reflexivity.
  - reflexivity.
Qed.

End SerializationBridge.

Section NullAndFailureClaims.

Context {hal : HalConstants} {par : Parcelable OverlayProperties}.

(** C3: with the null descriptor both queries return [false] without an
    error, and [write] writes nothing: whatever the reference it is given,
    no parcel and no native object changes, and on every channel it is a
    no-op that raises nothing, the state after it being the state before. *)
Theorem null_descriptor_queries_false_write_nothing (st : JniState) :
  android_hardware_OverlayProperties_supportFp16ForHdr nullptr st =
    Some (false, st) /\
  android_hardware_OverlayProperties_supportMixedColorSpaces nullptr st =
    Some (false, st) /\
  (forall dest, exists st',
      android_hardware_OverlayProperties_write nullptr dest st = Some (tt, st') /\
      parcels st' = parcels st /\ nativeHeap st' = nativeHeap st) /\
  (forall dest,
      dest <> 0 -> is_Some (parcels st !! dest) ->
      android_hardware_OverlayProperties_write nullptr dest st = Some (tt, st)).
Proof.
  split; [apply supportFp16ForHdr_null|].
  split; [apply supportMixedColorSpaces_null|].
  split.
  - intros dest. rewrite write_null. eexists; split; [reflexivity|].
    case_decide; split; reflexivity.
  - intros dest Hdest [ch Hch]. rewrite write_null.
    rewrite decide_False; [reflexivity|].
    intros [?|Hnone]; [contradiction | congruence].
Qed.

(** C4: when [readFromParcel] reports a failure on the channel, [read]
    returns the null handle, and the object it had allocated and partly
    filled is deleted: the native heap is the heap before the call. *)
Theorem read_failure_returns_null_without_leak
  (st : JniState) (in_ : Z) (ch : Parcel) :
  in_ <> 0 ->
  parcels st !! in_ = Some ch ->
  (readFromParcel OverlayProperties_default ch).1.1 <> NO_ERROR ->
  exists st',
    android_hardware_OverlayProperties_read in_ st = Some (nullptr, st') /\
    nativeHeap st' = nativeHeap st /\
    pendingException st' = pendingException st.
Proof.
  intros Hin Hch Hfail. rewrite (read_present st in_ ch Hin Hch).
  rewrite decide_True by exact Hfail.
  eexists; split; [reflexivity|]. split; reflexivity.
Qed.

(** C10: when [read] fails, for an absent channel or for a read error, its
    result is the null handle, on which both queries return [false] and
    [write] is a no-op: whatever the reference it is given, no parcel and no
    native object changes, and on every channel the state after it is the
    state before. *)
Theorem failed_read_composes_as_null_descriptor (st : JniState) (in_ : Z) :
  (in_ = 0 \/ parcels st !! in_ = None) \/
  (exists ch, in_ <> 0 /\ parcels st !! in_ = Some ch /\
              (readFromParcel OverlayProperties_default ch).1.1 <> NO_ERROR) ->
  exists handle st',
    android_hardware_OverlayProperties_read in_ st = Some (handle, st') /\
    handle = 0 /\
    android_hardware_OverlayProperties_supportFp16ForHdr handle st' =
      Some (false, st') /\
    android_hardware_OverlayProperties_supportMixedColorSpaces handle st' =
      Some (false, st') /\
    (forall dest, exists st'',
        android_hardware_OverlayProperties_write handle dest st' = Some (tt, st'') /\
        parcels st'' = parcels st' /\ nativeHeap st'' = nativeHeap st') /\
    (forall dest,
        dest <> 0 -> is_Some (parcels st' !! dest) ->
        android_hardware_OverlayProperties_write handle dest st' = Some (tt, st')).
Proof.
  intros Hfail.
  assert (exists st', android_hardware_OverlayProperties_read in_ st =
                        Some (0, st')) as [st' Hread].
  { destruct Hfail as [Habs|(ch & Hin & Hch & Herr)].
    - rewrite (read_absent st in_ Habs). eauto.
    - rewrite (read_present st in_ ch Hin Hch).
      rewrite decide_True by exact Herr. eauto. }
  exists 0, st'. split; [exact Hread|]. split; [reflexivity|].
  split; [apply supportFp16ForHdr_null|].
  split; [apply supportMixedColorSpaces_null|].
  change 0 with nullptr. split.
  - intros dest. rewrite write_null.
    eexists; split; [reflexivity|]. case_decide; split; reflexivity.
  - intros dest Hdest [ch Hch]. rewrite write_null.
    rewrite decide_False; [reflexivity|].
    intros [?|Hnone]; [contradiction | congruence].
Qed.

End NullAndFailureClaims.

Section WireFormatClaims.

(** C7: [write] appends to the channel the flag as one boolean field, then
    the combination count, then for each combination in order its format
    count and formats and its dataspace count and dataspaces; [read]
    consumes exactly these fields, in this order, and leaves the rest. *)
Theorem write_read_field_order (d : OverlayProperties) :
  OverlayProperties_valid d ->
  (forall st nativeObject dest ch,
      nativeObject <> nullptr ->
      dest <> 0 ->
      nativeHeap st !! nativeObject = Some d ->
      parcels st !! dest = Some ch ->
      android_hardware_OverlayProperties_write nativeObject dest st =
        Some (tt, set_parcels
                    (<[dest := ch ++ OverlayProperties_fields d]> (parcels st))
                    st)) /\
  (forall st in_ rest,
      in_ <> 0 ->
      parcels st !! in_ = Some (OverlayProperties_fields d ++ rest) ->
      exists handle st',
        android_hardware_OverlayProperties_read in_ st = Some (handle, st') /\
        handle <> nullptr /\
        nativeHeap st' !! handle = Some d /\
        parcels st' !! in_ = Some rest).
Proof.
  intros Hvalid. split.
  - intros st nativeObject dest ch Hnn Hdest Hd Hch.
    rewrite (write_live st nativeObject dest d ch Hnn Hdest Hd Hch).
    cbn [writeToParcel OverlayProperties_Parcelable].
    rewrite OverlayProperties_writeToParcel_fields by exact Hvalid.
    reflexivity.
  - intros st in_ rest Hin Hch.
    rewrite (read_present st in_ _ Hin Hch).
    cbn [readFromParcel OverlayProperties_Parcelable].
    rewrite OverlayProperties_readFromParcel_fields.
    rewrite decide_False by (simpl; congruence).
    destruct (new_address_fresh st) as [Hp _].
    eexists _, _. split; [reflexivity|]. split; [exact Hp|].
    jni_simpl. rewrite !lookup_insert_eq. split; reflexivity.
Qed.

(** C2: writing a valid descriptor to an empty channel and reading the
    channel back gives a new descriptor equal to the written one, field
    for field: same combinations in the same order, same formats and
    dataspaces in the same order, same flag. *)
Theorem write_then_read_round_trip
  (st : JniState) (nativeObject channel : Z) (d : OverlayProperties) :
  OverlayProperties_valid d ->
  nativeObject <> nullptr ->
  channel <> 0 ->
  nativeHeap st !! nativeObject = Some d ->
  parcels st !! channel = Some [] ->
  exists st1 handle st2 d',
    android_hardware_OverlayProperties_write nativeObject channel st =
      Some (tt, st1) /\
    android_hardware_OverlayProperties_read channel st1 =
      Some (handle, st2) /\
    handle <> nullptr /\
    handle <> nativeObject /\
    nativeHeap st2 !! handle = Some d' /\
    d' = d /\
    combinations d' = combinations d /\
    supportMixedColorSpaces d' = supportMixedColorSpaces d /\
    nativeHeap st2 !! nativeObject = Some d /\
    parcels st2 !! channel = Some [].
Proof.
  intros Hvalid Hnn Hch0 Hd Hch.
  pose (st1 := set_parcels
                 (<[channel := OverlayProperties_fields d]> (parcels st)) st).
  assert (Hwrite : android_hardware_OverlayProperties_write nativeObject channel st =
                     Some (tt, st1)).
  { rewrite (write_live st nativeObject channel d [] Hnn Hch0 Hd Hch).
    cbn [writeToParcel OverlayProperties_Parcelable].
    rewrite OverlayProperties_writeToParcel_fields by exact Hvalid.
    reflexivity. }
  assert (Hch1 : parcels st1 !! channel = Some (OverlayProperties_fields d ++ [])).
  { unfold st1. jni_simpl. rewrite lookup_insert_eq, app_nil_r. reflexivity. }
  destruct (new_address_fresh st1) as [Hp Hfree].
  pose proof (read_present st1 channel _ Hch0 Hch1) as Hread.
  cbn [readFromParcel OverlayProperties_Parcelable] in Hread.
  rewrite OverlayProperties_readFromParcel_fields in Hread.
  rewrite decide_False in Hread by (simpl; congruence).
  cbn [fst snd] in Hread.
  set (handle := fresh ({[nullptr]} ∪ dom (nativeHeap st1))) in *.
  assert (Hne : handle <> nativeObject).
  { intros Heq. rewrite Heq in Hfree. unfold st1 in Hfree. cbn [set_parcels nativeHeap] in Hfree.
    congruence. }
  eexists st1, handle, _, d.
  split; [exact Hwrite|]. split; [exact Hread|].
  split; [exact Hp|]. split; [exact Hne|]. jni_simpl.
  rewrite !lookup_insert_eq, (lookup_insert_ne _ _ _ _ Hne).
  unfold st1. jni_simpl. repeat split; trivial.
Qed.

End WireFormatClaims.

(** ** Truncated and malformed streams *)

Section Truncation.

Lemma readInt32_truncated (i : Z) : fails_when_truncated readInt32 [PInt32 i].
Proof.
  intros s t Hst Ht. destruct s as [|x s].
  - exists NOT_ENOUGH_DATA, []. split; [reflexivity | discriminate].
  - destruct s; destruct t; simpl in Hst; congruence.
Qed.

Lemma readBool_truncated (b : bool) : fails_when_truncated readBool [PBool b].
Proof.
  intros s t Hst Ht. destruct s as [|x s].
  - exists NOT_ENOUGH_DATA, []. split; [reflexivity | discriminate].
  - destruct s; destruct t; simpl in Hst; congruence.
Qed.

Lemma mret_truncated {A} (a : A) : fails_when_truncated (mret a) [].
Proof.
  intros s t Hst Ht. symmetry in Hst. apply app_eq_nil in Hst as [_ ->].
  contradiction.
Qed.

(** Sequencing: a stream cut inside the fields of [m >>= k] is cut inside
    the fields of [m], or after them inside the fields of [k a]. *)
Lemma bind_truncated {A B} (m : ParcelOp A) (k : A -> ParcelOp B)
  (l1 l2 : list Prim) (a : A) :
  reads_back m l1 a ->
  fails_when_truncated m l1 ->
  fails_when_truncated (k a) l2 ->
  fails_when_truncated (m ≫= k) (l1 ++ l2).
Proof.
  intros Hread Hm Hk s t Hst Ht. unfold mbind, ParcelOp_bind.
  apply app_eq_app in Hst as [l [[-> ->]|[-> ->]]].
  - destruct l as [|x l].
    + pose proof (Hread []) as Hs. rewrite !app_nil_r in Hs. rewrite Hs.
      apply (Hk [] l2); [reflexivity | exact Ht].
    + destruct (Hm s (x :: l)) as (e & p & -> & He);
        [reflexivity | discriminate |].
      exists e, p. split; [reflexivity | exact He].
  - rewrite Hread. apply (Hk l t); [reflexivity | exact Ht].
Qed.

Lemma bind_reads_back {A B} (m : ParcelOp A) (k : A -> ParcelOp B)
  (l1 l2 : list Prim) (a : A) (b : B) :
  reads_back m l1 a -> reads_back (k a) l2 b ->
  reads_back (m ≫= k) (l1 ++ l2) b.
Proof.
  intros Hm Hk rest. unfold mbind, ParcelOp_bind.
  rewrite <- app_assoc, Hm. apply Hk.
Qed.

Lemma readElements_truncated {A} (fields : A -> list Prim)
  (readElem : ParcelOp A) (v : list A) :
  (forall x, reads_back readElem (fields x) x) ->
  (forall x, fails_when_truncated readElem (fields x)) ->
  fails_when_truncated (readElements readElem (length v))
    (concat (map fields v)).
Proof.
  intros Hread Htrunc. induction v as [|x v IH]; simpl.
  - apply mret_truncated.
  - apply (bind_truncated _ _ _ _ x); [apply Hread | apply Htrunc |].
    rewrite <- (app_nil_r (concat (map fields v))).
    apply (bind_truncated _ _ _ _ v); [| exact IH | apply mret_truncated].
    intros rest. apply readElements_fields. exact Hread.
Qed.

Lemma readVector_truncated {A} (fields : A -> list Prim)
  (readElem : ParcelOp A) (v : list A) :
  (forall x, reads_back readElem (fields x) x) ->
  (forall x, fails_when_truncated readElem (fields x)) ->
  fails_when_truncated (readVector readElem)
    (PInt32 (Z.of_nat (length v)) :: concat (map fields v)).
Proof.
  intros Hread Htrunc s t Hst Ht. destruct s as [|x s].
  - exists NOT_ENOUGH_DATA, []. split; [reflexivity | discriminate].
  - simpl in Hst. injection Hst as <- Hst.
    unfold readVector, mbind, ParcelOp_bind. simpl.
    destruct (decide (Z.of_nat (length v) < 0)) as [Hneg|_]; [lia|].
    rewrite Nat2Z.id.
    apply (readElements_truncated fields readElem v Hread Htrunc s t Hst Ht).
Qed.

Lemma readInt32Vector_reads_back (v : list Z) :
  reads_back readInt32Vector (PInt32 (Z.of_nat (length v)) :: map PInt32 v) v.
Proof. intros rest. apply readInt32Vector_fields. Qed.

Lemma readInt32Vector_truncated (v : list Z) :
  fails_when_truncated readInt32Vector
    (PInt32 (Z.of_nat (length v)) :: map PInt32 v).
Proof.
  rewrite <- (concat_map_singleton PInt32 v).
  apply (readVector_truncated (fun x => [PInt32 x])).
  - intros x rest. reflexivity.
  - apply readInt32_truncated.
Qed.

Lemma readCombination_truncated (c : Combination) :
  fails_when_truncated readCombination (Combination_fields c).
Proof.
  unfold readCombination, Combination_fields.
  change (PInt32 (Z.of_nat (length (pixelFormats c))) ::
            map PInt32 (pixelFormats c) ++
            PInt32 (Z.of_nat (length (dataspaces c))) ::
            map PInt32 (dataspaces c))
    with ((PInt32 (Z.of_nat (length (pixelFormats c))) ::
             map PInt32 (pixelFormats c)) ++
          PInt32 (Z.of_nat (length (dataspaces c))) ::
            map PInt32 (dataspaces c)).
  apply (bind_truncated _ _ _ _ (pixelFormats c));
    [apply readInt32Vector_reads_back | apply readInt32Vector_truncated |].
  rewrite <- (app_nil_r (_ :: map PInt32 (dataspaces c))).
  apply (bind_truncated _ _ _ _ (dataspaces c));
    [apply readInt32Vector_reads_back | apply readInt32Vector_truncated |].
  apply mret_truncated.
Qed.

(** A stream that stops before the last field of a descriptor is refused,
    whatever the descriptor: the count it declares, or one of the counts
    inside it, is larger than what remains. *)
Lemma readFromParcel_truncated (this d : OverlayProperties) (s t : Parcel) :
  OverlayProperties_fields d = s ++ t ->
  t <> [] ->
  (OverlayProperties_readFromParcel this s).1.1 <> NO_ERROR.
Proof.
  intros Hst Ht. unfold OverlayProperties_fields in Hst.
  unfold OverlayProperties_readFromParcel. destruct s as [|x s].
  - simpl. discriminate.
  - simpl in Hst. injection Hst as <- Hst. simpl.
    destruct (readVector_truncated Combination_fields readCombination
                (combinations d) readCombination_fields
                readCombination_truncated s t Hst Ht)
      as (e & p & -> & He).
    exact He.
Qed.

(** A negative combination count is refused. *)
Lemma readFromParcel_negative_count (this : OverlayProperties) (flag : bool)
  (count : Z) (rest : Parcel) :
  count < 0 ->
  (OverlayProperties_readFromParcel this
     (PBool flag :: PInt32 count :: rest)).1.1 = BAD_VALUE.
Proof.
  intros Hneg. unfold OverlayProperties_readFromParcel, readVector. simpl.
  unfold mbind, ParcelOp_bind. simpl.
  destruct (decide (count < 0)); [reflexivity | lia].
Qed.

End Truncation.

(** ** The claims at concrete descriptors *)

(** Validity of a concrete descriptor, by evaluation. *)
Ltac solve_valid :=
  unfold OverlayProperties_valid, Combination_valid;
  repeat first [ split | apply Forall_nil | apply Forall_cons ];
  vm_compute; congruence.

Lemma android_hal_identifiers :
  @FP16_format android_hal = 22 /\
  @BT2020_PQ_dataspace android_hal = 163971072.
Proof. split; reflexivity. Qed.

Lemma supportFp16ForHdr_cross_combination :
  android_hardware_OverlayProperties_supportFp16ForHdr
    (hal := android_hal) 7 cross_combination_state =
    Some (false, cross_combination_state).
Proof.
  apply (proj2 (supportFp16ForHdr_iff_same_combination (hal := android_hal)
                  cross_combination_state 7 cross_combination_descriptor
                  ltac:(discriminate) ltac:(reflexivity))
           HAL_PIXEL_FORMAT_RGBA_8888 HAL_DATASPACE_V0_SRGB);
    [discriminate | discriminate | reflexivity].
Defined.

Lemma write_then_read_two_combinations :
  exists st1 handle st2,
    android_hardware_OverlayProperties_write 7 1 two_combination_state =
      Some (tt, st1) /\
    android_hardware_OverlayProperties_read 1 st1 = Some (handle, st2) /\
    nativeHeap st2 !! handle = Some two_combination_descriptor.
Proof.
  destruct (write_then_read_round_trip
              two_combination_state 7 1 two_combination_descriptor
              ltac:(solve_valid) ltac:(discriminate) ltac:(discriminate)
              ltac:(reflexivity) ltac:(reflexivity))
    as (st1 & handle & st2 & d' & Hw & Hr & _ & _ & Hd' & -> & _).
  exists st1, handle, st2. auto.
Defined.

Lemma write_null_descriptor_present_channel :
  android_hardware_OverlayProperties_write
    (par := OverlayProperties_Parcelable) nullptr 1 two_combination_state =
    Some (tt, two_combination_state).
Proof.
  apply (proj2 (proj2 (proj2
           (null_descriptor_queries_false_write_nothing
              (hal := android_hal) (par := OverlayProperties_Parcelable)
              two_combination_state)))
           1 ltac:(discriminate) ltac:(eexists; reflexivity)).
Defined.

Lemma read_truncated_stream :
  exists st',
    android_hardware_OverlayProperties_read
      (par := OverlayProperties_Parcelable) 1 truncated_stream_state =
      Some (nullptr, st') /\
    nativeHeap st' = nativeHeap truncated_stream_state /\
    pendingException st' = pendingException truncated_stream_state.
Proof.
  apply (read_failure_returns_null_without_leak
           (par := OverlayProperties_Parcelable)
           truncated_stream_state 1 truncated_stream
           ltac:(discriminate) ltac:(reflexivity) ltac:(discriminate)).
Defined.

Lemma supportMixedColorSpaces_flag_set :
  android_hardware_OverlayProperties_supportMixedColorSpaces
    7 two_combination_state =
    Some (true, two_combination_state).
Proof.
  apply (proj1 supportMixedColorSpaces_is_flag
           two_combination_state 7 two_combination_descriptor
           ltac:(discriminate) ltac:(reflexivity)).
Defined.

Lemma fresh_descriptor_no_capability :
  OverlayProperties_valid OverlayProperties_default /\
  android_hardware_OverlayProperties_supportFp16ForHdr
    (hal := android_hal) 7 fresh_descriptor_state =
    Some (false, fresh_descriptor_state).
Proof.
  destruct (empty_descriptor_valid_no_capability (hal := android_hal)
              OverlayProperties_default ltac:(reflexivity))
    as [Hvalid Hquery].
  split; [exact Hvalid|].
  apply (Hquery fresh_descriptor_state 7
           ltac:(discriminate) ltac:(reflexivity)).
Defined.

Lemma write_two_combinations_fields :
  android_hardware_OverlayProperties_write 7 1 two_combination_state =
    Some (tt, set_parcels
                (<[1 := [PBool true; PInt32 2;
                         PInt32 3; PInt32 22; PInt32 1; PInt32 22;
                         PInt32 2; PInt32 163971072; PInt32 142671872;
                         PInt32 0;
                         PInt32 1; PInt32 142671872]]>
                   (parcels two_combination_state))
                two_combination_state).
Proof.
  apply (proj1 (write_read_field_order two_combination_descriptor
                  ltac:(solve_valid))
           two_combination_state 7 1 []
           ltac:(discriminate) ltac:(discriminate)
           ltac:(reflexivity) ltac:(reflexivity)).
Defined.

Lemma queries_on_reordered_descriptor :
  fst <$> android_hardware_OverlayProperties_supportFp16ForHdr
            (hal := android_hal) 7 two_combination_state =
    fst <$> android_hardware_OverlayProperties_supportFp16ForHdr
              (hal := android_hal) 9 reordered_state.
Proof.
  apply (queries_order_insensitive (hal := android_hal)
           two_combination_state reordered_state 7 9
           two_combination_descriptor two_combination_descriptor_reordered
           ltac:(discriminate) ltac:(discriminate)
           ltac:(reflexivity) ltac:(reflexivity)).
  split; [|reflexivity].
  exists (rev (combinations two_combination_descriptor)). split.
  - apply perm_swap.
  - repeat constructor.
Defined.

Lemma queries_leave_state :
  exists b,
    android_hardware_OverlayProperties_supportFp16ForHdr
      (hal := android_hal) 7 two_combination_state =
      Some (b, two_combination_state).
Proof.
  apply (queries_read_only (hal := android_hal) two_combination_state 7).
  right. eexists. reflexivity.
Defined.

Lemma failed_read_then_query :
  exists handle st',
    android_hardware_OverlayProperties_read
      (par := OverlayProperties_Parcelable) 1 truncated_stream_state =
      Some (handle, st') /\
    android_hardware_OverlayProperties_supportFp16ForHdr
      (hal := android_hal) handle st' = Some (false, st').
Proof.
  destruct (failed_read_composes_as_null_descriptor
              (hal := android_hal) (par := OverlayProperties_Parcelable)
              truncated_stream_state 1)
    as (handle & st' & Hread & _ & Hquery & _).
  - right. exists truncated_stream.
    split; [discriminate|]. split; [reflexivity | discriminate].
  - exists handle, st'. split; assumption.
Defined.

(** ** The code run on the examples *)

Example supportFp16ForHdr_matching_combination :
  android_hardware_OverlayProperties_supportFp16ForHdr
    (hal := android_hal) 7 two_combination_state =
    Some (true, two_combination_state).
Proof. reflexivity. Qed.

Example supportFp16ForHdr_dangling_handle :
  android_hardware_OverlayProperties_supportFp16ForHdr
    (hal := android_hal) 8 two_combination_state = None.
Proof. reflexivity. Qed.

Example readFromParcel_truncated_stream :
  readFromParcel OverlayProperties_default truncated_stream =
    (NOT_ENOUGH_DATA,
     set_supportMixedColorSpaces true OverlayProperties_default, []).
Proof. reflexivity. Qed.

Example readFromParcel_two_combinations :
  readFromParcel OverlayProperties_default
    (OverlayProperties_fields two_combination_descriptor ++ [PBool false]) =
    (NO_ERROR, two_combination_descriptor, [PBool false]).
Proof. reflexivity. Qed.

(** * Further properties of the bridge *)

(** ** Lifecycle and ownership *)

Section Ownership.

Context {hal : HalConstants} {par : Parcelable OverlayProperties}.

(** The state after a read that succeeds. *)
Lemma read_success_gives_fresh_object_aux
  (st : JniState) (in_ : Z) (ch : Parcel) :
  in_ <> 0 ->
  parcels st !! in_ = Some ch ->
  (readFromParcel OverlayProperties_default ch).1.1 = NO_ERROR ->
  exists handle st',
    android_hardware_OverlayProperties_read in_ st = Some (handle, st') /\
    handle <> nullptr /\
    nativeHeap st !! handle = None /\
    nativeHeap st' =
      <[handle := (readFromParcel OverlayProperties_default ch).1.2]>
        (nativeHeap st) /\
    parcels st' =
      <[in_ := (readFromParcel OverlayProperties_default ch).2]> (parcels st) /\
    pendingException st' = pendingException st.
Proof.
  intros Hin Hch Hok. rewrite (read_present st in_ ch Hin Hch).
  rewrite decide_False by (intros Hne; apply Hne; exact Hok).
  destruct (new_address_fresh st) as [Hp Hfree].
  eexists _, _. split; [reflexivity|]. repeat split; assumption.
Qed.

(** X1: a read that succeeds returns a handle that is not null and was not
    live before, and the only change to the native heap is the new object at
    that handle, filled as [readFromParcel] left it; the channel is left as
    [readFromParcel] left it and no exception is raised. *)
Theorem read_success_gives_fresh_object
  (st : JniState) (in_ : Z) (ch : Parcel) :
  in_ <> 0 ->
  parcels st !! in_ = Some ch ->
  (readFromParcel OverlayProperties_default ch).1.1 = NO_ERROR ->
  exists handle st',
    android_hardware_OverlayProperties_read in_ st = Some (handle, st') /\
    handle <> nullptr /\
    nativeHeap st !! handle = None /\
    nativeHeap st' =
      <[handle := (readFromParcel OverlayProperties_default ch).1.2]>
        (nativeHeap st) /\
    parcels st' =
      <[in_ := (readFromParcel OverlayProperties_default ch).2]> (parcels st) /\
    pendingException st' = pendingException st.
Proof.
  intros Hin Hch Hok. rewrite (read_present st in_ ch Hin Hch).
  rewrite decide_False by (intros Hne; apply Hne; exact Hok).
  destruct (new_address_fresh st) as [Hp Hfree].
  eexists _, _. split; [reflexivity|]. repeat split; assumption.
Qed.

(** X2: with the channel absent, [write] and [read] raise
    [NullPointerException] and do nothing else: [write] does so for every
    handle, also one that points to no live object, and [read] returns the
    null handle without allocating. *)
Theorem absent_channel_raises_and_does_nothing_else
  (st : JniState) (obj : Z) :
  obj = 0 \/ parcels st !! obj = None ->
  (forall nativeObject,
      android_hardware_OverlayProperties_write nativeObject obj st =
        Some (tt, set_pendingException (Some NullPointerException) st)) /\
  android_hardware_OverlayProperties_read obj st =
    Some (0, set_pendingException (Some NullPointerException) st).
Proof.
  intros Habs. split.
  - intros nativeObject.
    unfold android_hardware_OverlayProperties_write, mbind, JNI_bind.
    rewrite (parcelForJavaObject_absent st obj Habs). reflexivity.
  - apply read_absent. exact Habs.
Qed.

(** X3: writing a live descriptor to a present channel changes that channel
    only, to what [writeToParcel] left; the native heap, the other channels
    and the pending exception stay as they are.  The status [writeToParcel]
    returns is dropped: a failed write is not reported. *)
Theorem write_changes_only_its_channel
  (st : JniState) (nativeObject dest : Z) (d : OverlayProperties) (ch : Parcel) :
  nativeObject <> nullptr ->
  dest <> 0 ->
  nativeHeap st !! nativeObject = Some d ->
  parcels st !! dest = Some ch ->
  exists st',
    android_hardware_OverlayProperties_write nativeObject dest st =
      Some (tt, st') /\
    nativeHeap st' = nativeHeap st /\
    pendingException st' = pendingException st /\
    parcels st' !! dest = Some (writeToParcel d ch).2 /\
    (forall other, other <> dest -> parcels st' !! other = parcels st !! other).
Proof.
  intros Hnn Hdest Hd Hch.
  rewrite (write_live st nativeObject dest d ch Hnn Hdest Hd Hch).
  eexists. split; [reflexivity|]. jni_simpl.
  split; [reflexivity|]. split; [reflexivity|]. split.
  - apply lookup_insert_eq.
  - intros other Hother. apply lookup_insert_ne. congruence.
Qed.

(** X4: destroying the handle a successful read returned gives back the
    native heap of before the read. *)
Theorem read_then_destroy_restores_heap
  (st : JniState) (in_ : Z) (ch : Parcel) :
  in_ <> 0 ->
  parcels st !! in_ = Some ch ->
  (readFromParcel OverlayProperties_default ch).1.1 = NO_ERROR ->
  exists handle st' st'',
    android_hardware_OverlayProperties_read in_ st = Some (handle, st') /\
    destroyOverlayProperties handle st' = Some (tt, st'') /\
    nativeHeap st'' = nativeHeap st /\
    parcels st'' = parcels st'.
Proof.
  intros Hin Hch Hok. rewrite (read_present st in_ ch Hin Hch).
  rewrite decide_False by (intros Hne; apply Hne; exact Hok).
  destruct (new_address_fresh st) as [Hp Hfree].
  eexists _, _, _. split; [reflexivity|].
  unfold destroyOverlayProperties, delete_OverlayProperties.
  rewrite decide_False by exact Hp. jni_simpl. rewrite lookup_insert_eq.
  split; [reflexivity|]. jni_simpl. split; [|reflexivity].
  apply delete_insert_id. exact Hfree.
Qed.

(** X5: destroying a live handle ends the life of that object and of no
    other, and touches neither the channels nor the pending exception; after
    it the handle is dangling: a query on it and a second destroy are
    undefined.  Destroying the null handle does nothing. *)
Theorem destroy_removes_exactly_its_object (st : JniState) :
  destroyOverlayProperties nullptr st = Some (tt, st) /\
  (forall overlayProperties d,
      overlayProperties <> nullptr ->
      nativeHeap st !! overlayProperties = Some d ->
      exists st',
        destroyOverlayProperties overlayProperties st = Some (tt, st') /\
        nativeHeap st' !! overlayProperties = None /\
        (forall other, other <> overlayProperties ->
                       nativeHeap st' !! other = nativeHeap st !! other) /\
        parcels st' = parcels st /\
        pendingException st' = pendingException st /\
        destroyOverlayProperties overlayProperties st' = None /\
        android_hardware_OverlayProperties_supportFp16ForHdr
          overlayProperties st' = None /\
        android_hardware_OverlayProperties_supportMixedColorSpaces
          overlayProperties st' = None).
Proof.
  split; [reflexivity|].
  intros p d Hp Hd. unfold destroyOverlayProperties, delete_OverlayProperties.
  rewrite decide_False by exact Hp. rewrite Hd.
  eexists. split; [reflexivity|]. jni_simpl.
  split; [apply lookup_delete_eq|].
  split; [intros other Hother; apply lookup_delete_ne; congruence|].
  split; [reflexivity|]. split; [reflexivity|].
  unfold android_hardware_OverlayProperties_supportFp16ForHdr,
    android_hardware_OverlayProperties_supportMixedColorSpaces,
    mbind, JNI_bind, load.
  rewrite !decide_False by exact Hp. rewrite !decide_True by exact Hp.
  jni_simpl. rewrite !lookup_delete_eq. repeat split; reflexivity.
Qed.

(** X6: [read] is defined in every state and on every reference, and
    whatever its outcome it neither changes nor frees an object that was
    live before, and it changes no channel but its own. *)
Theorem read_keeps_live_objects (st : JniState) (in_ : Z) :
  exists handle st',
    android_hardware_OverlayProperties_read in_ st = Some (handle, st') /\
    (forall other d,
        nativeHeap st !! other = Some d ->
        nativeHeap st' !! other = Some d) /\
    (forall other, other <> in_ -> parcels st' !! other = parcels st !! other).
Proof.
  destruct (decide (in_ = 0 \/ parcels st !! in_ = None)) as [Habs|Hpres].
  - rewrite (read_absent st in_ Habs). eexists _, _.
    split; [reflexivity|]. jni_simpl. split; auto.
  - destruct (parcels st !! in_) as [ch|] eqn:Hch; [|tauto].
    assert (Hin : in_ <> 0) by tauto.
    rewrite (read_present st in_ ch Hin Hch).
    destruct (new_address_fresh st) as [Hp Hfree].
    case_decide; eexists _, _; (split; [reflexivity|]); jni_simpl; split.
    + auto.
    + intros other Hother. apply lookup_insert_ne. congruence.
    + intros other d Hd. rewrite lookup_insert_ne; [exact Hd|].
      intros Heq. rewrite Heq in Hfree. congruence.
    + intros other Hother. apply lookup_insert_ne. congruence.
Qed.

(** X7: two reads in a row from one channel, both successful, give two
    different handles, both live afterwards with the objects the two reads
    filled; the second read starts where the first one stopped. *)
Theorem two_reads_give_distinct_objects
  (st : JniState) (in_ : Z) (ch ch1 ch2 : Parcel) (obj1 obj2 : OverlayProperties) :
  in_ <> 0 ->
  parcels st !! in_ = Some ch ->
  readFromParcel OverlayProperties_default ch = (NO_ERROR, obj1, ch1) ->
  readFromParcel OverlayProperties_default ch1 = (NO_ERROR, obj2, ch2) ->
  exists handle1 st1 handle2 st2,
    android_hardware_OverlayProperties_read in_ st = Some (handle1, st1) /\
    android_hardware_OverlayProperties_read in_ st1 = Some (handle2, st2) /\
    handle1 <> handle2 /\
    nativeHeap st2 !! handle1 = Some obj1 /\
    nativeHeap st2 !! handle2 = Some obj2 /\
    parcels st2 !! in_ = Some ch2.
Proof.
  intros Hin Hch Hfirst Hsecond.
  destruct (read_success_gives_fresh_object_aux st in_ ch Hin Hch)
    as (handle1 & st1 & Hread1 & _ & _ & Hheap1 & Hparcels1 & _).
  { rewrite Hfirst. reflexivity. }
  rewrite Hfirst in Hheap1, Hparcels1. simpl in Hheap1, Hparcels1.
  assert (Hch1 : parcels st1 !! in_ = Some ch1).
  { rewrite Hparcels1. apply lookup_insert_eq. }
  destruct (read_success_gives_fresh_object_aux st1 in_ ch1 Hin Hch1)
    as (handle2 & st2 & Hread2 & _ & Hfree2 & Hheap2 & Hparcels2 & _).
  { rewrite Hsecond. reflexivity. }
  rewrite Hsecond in Hheap2, Hparcels2. simpl in Hheap2, Hparcels2.
  assert (Hlive1 : nativeHeap st1 !! handle1 = Some obj1).
  { rewrite Hheap1. apply lookup_insert_eq. }
  assert (Hne : handle1 <> handle2) by congruence.
  exists handle1, st1, handle2, st2.
  split; [exact Hread1|]. split; [exact Hread2|]. split; [exact Hne|].
  rewrite Hheap2, Hparcels2.
  rewrite lookup_insert_ne by congruence. rewrite !lookup_insert_eq. auto.
Qed.

(** X8: the queries on the handle a successful read returned are the
    queries on the object [readFromParcel] filled: the mixed-colour-space
    query returns its flag and the HDR query scans its combinations. *)
Theorem read_then_queries
  (st : JniState) (in_ : Z) (ch ch' : Parcel) (obj : OverlayProperties) :
  in_ <> 0 ->
  parcels st !! in_ = Some ch ->
  readFromParcel OverlayProperties_default ch = (NO_ERROR, obj, ch') ->
  exists handle st',
    android_hardware_OverlayProperties_read in_ st = Some (handle, st') /\
    android_hardware_OverlayProperties_supportMixedColorSpaces handle st' =
      Some (supportMixedColorSpaces obj, st') /\
    android_hardware_OverlayProperties_supportFp16ForHdr handle st' =
      Some (supportFp16ForHdr_loop (combinations obj), st').
Proof.
  intros Hin Hch Hok.
  destruct (read_success_gives_fresh_object_aux st in_ ch Hin Hch)
    as (handle & st' & Hread & Hnn & _ & Hheap & _).
  { rewrite Hok. reflexivity. }
  rewrite Hok in Hheap. simpl in Hheap.
  assert (Hlive : nativeHeap st' !! handle = Some obj).
  { rewrite Hheap. apply lookup_insert_eq. }
  exists handle, st'. split; [exact Hread|]. split.
  - apply supportMixedColorSpaces_live; assumption.
  - apply supportFp16ForHdr_live; assumption.
Qed.

End Ownership.

(** ** What the HDR query depends on *)

Lemma std_find_lookup (v : list Z) (value : Z) :
  (std.find v value < std.end_ v)%nat ->
  v !! std.find v value = Some value.
Proof.
  unfold std.end_. induction v as [|x v IH]; simpl; [lia|].
  destruct (decide (x = value)) as [->|Hne]; [reflexivity|].
  intros Hlt. simpl. apply IH. lia.
Qed.

Lemma std_find_before (v : list Z) (value : Z) (j : nat) :
  (j < std.find v value)%nat -> v !! j <> Some value.
Proof.
  revert j. induction v as [|x v IH]; intros j; simpl; [lia|].
  destruct (decide (x = value)) as [->|Hne]; [lia|].
  destruct j as [|j]; simpl.
  - intros _. congruence.
  - intros Hlt. apply IH. lia.
Qed.

(** X9: [std::find] as the queries use it: the iterator it returns is never
    past the end, it is the end exactly when the value does not occur, and
    when it is not the end it points to the first occurrence of the value. *)
Theorem std_find_first_occurrence (v : list Z) (value : Z) :
  (std.find v value <= std.end_ v)%nat /\
  (std.find v value = std.end_ v <-> value ∉ v) /\
  ((std.find v value < std.end_ v)%nat ->
   v !! std.find v value = Some value /\
   forall j, (j < std.find v value)%nat -> v !! j <> Some value).
Proof.
  split; [apply std_find_le|]. split.
  - pose proof (std_find_end v value) as Hend. split.
    + intros Heq Hin. apply Hend in Hin. contradiction.
    + intros Hnin. destruct (decide (std.find v value = std.end_ v)) as [|Hne];
        [assumption|]. apply Hend in Hne. contradiction.
  - intros Hlt. split; [apply std_find_lookup; exact Hlt|].
    intros j. apply std_find_before.
Qed.

(** X10: [static_cast<int32_t>] always gives an [int32_t], differs from its
    argument by a multiple of 2^32, and leaves an [int32_t] as it is. *)
Theorem static_cast_int32_wraps (z : Z) :
  is_int32 (static_cast_int32 z) /\
  (exists k, static_cast_int32 z = z + k * 2 ^ 32) /\
  static_cast_int32 (static_cast_int32 z) = static_cast_int32 z /\
  (is_int32 z -> static_cast_int32 z = z).
Proof.
  assert (Hrange : is_int32 (static_cast_int32 z)).
  { unfold is_int32, static_cast_int32, INT32_MAX.
    pose proof (Z.mod_pos_bound (z + 2 ^ 31) (2 ^ 32) ltac:(lia)). lia. }
  split; [exact Hrange|]. split; [|split].
  - exists (- ((z + 2 ^ 31) `div` 2 ^ 32)). unfold static_cast_int32.
    pose proof (Z.div_mod (z + 2 ^ 31) (2 ^ 32) ltac:(lia)). lia.
  - apply static_cast_int32_id. exact Hrange.
  - apply static_cast_int32_id.
Qed.

Section Coverage.

Context {hal : HalConstants}.

Lemma combination_hasFp16Hdr_covers (c c' : Combination) :
  Combination_covers c c' ->
  combination_hasFp16Hdr c = true -> combination_hasFp16Hdr c' = true.
Proof.
  intros [Hpf Hds]. rewrite !combination_hasFp16Hdr_spec.
  intros [Hf Hs]. split; [apply Hpf | apply Hds]; assumption.
Qed.

Lemma supportFp16ForHdr_loop_covers (d d' : OverlayProperties) :
  OverlayProperties_covers d d' ->
  supportFp16ForHdr_loop (combinations d) = true ->
  supportFp16ForHdr_loop (combinations d') = true.
Proof.
  intros Hcov. rewrite !supportFp16ForHdr_loop_spec.
  intros (c & Hc & Hb). destruct (Hcov c Hc) as (c' & Hc' & Hcc').
  exists c'. split; [exact Hc'|].
  apply (combination_hasFp16Hdr_covers c c' Hcc' Hb).
Qed.

(** X11: the HDR query is monotone: when every combination of [d] is covered
    by a combination of [d'] that holds at least its formats and its
    dataspaces, and the query is true on [d], it is true on [d']. *)
Theorem supportFp16ForHdr_monotone
  (st st' : JniState) (nativeObject nativeObject' : Z)
  (d d' : OverlayProperties) :
  nativeObject <> nullptr ->
  nativeObject' <> nullptr ->
  nativeHeap st !! nativeObject = Some d ->
  nativeHeap st' !! nativeObject' = Some d' ->
  OverlayProperties_covers d d' ->
  android_hardware_OverlayProperties_supportFp16ForHdr nativeObject st =
    Some (true, st) ->
  android_hardware_OverlayProperties_supportFp16ForHdr nativeObject' st' =
    Some (true, st').
Proof.
  intros Hnn Hnn' Hd Hd' Hcov.
  rewrite (supportFp16ForHdr_live st nativeObject d Hnn Hd).
  rewrite (supportFp16ForHdr_live st' nativeObject' d' Hnn' Hd').
  intros Htrue. injection Htrue as Htrue.
  rewrite (supportFp16ForHdr_loop_covers d d' Hcov Htrue). reflexivity.
Qed.

(** X12: the HDR query looks at the vectors as sets: two descriptors that
    cover each other, so that they differ only in order and in repeated
    combinations and identifiers, get the same result. *)
Theorem supportFp16ForHdr_ignores_repetition
  (st st' : JniState) (nativeObject nativeObject' : Z)
  (d d' : OverlayProperties) :
  nativeObject <> nullptr ->
  nativeObject' <> nullptr ->
  nativeHeap st !! nativeObject = Some d ->
  nativeHeap st' !! nativeObject' = Some d' ->
  OverlayProperties_covers d d' ->
  OverlayProperties_covers d' d ->
  exists b,
    android_hardware_OverlayProperties_supportFp16ForHdr nativeObject st =
      Some (b, st) /\
    android_hardware_OverlayProperties_supportFp16ForHdr nativeObject' st' =
      Some (b, st').
Proof.
  intros Hnn Hnn' Hd Hd' Hcov Hcov'.
  rewrite (supportFp16ForHdr_live st nativeObject d Hnn Hd).
  rewrite (supportFp16ForHdr_live st' nativeObject' d' Hnn' Hd').
  eexists. split; [reflexivity|]. do 2 f_equal.
  apply eq_true_iff_eq. split; apply supportFp16ForHdr_loop_covers; assumption.
Qed.

(** X13: the scan of a list of combinations followed by another is the
    disjunction of the two scans: a combination added to a descriptor can
    turn the HDR query true and cannot turn it false. *)
Theorem supportFp16ForHdr_loop_app (cs1 cs2 : list Combination) :
  supportFp16ForHdr_loop (cs1 ++ cs2) =
    supportFp16ForHdr_loop cs1 || supportFp16ForHdr_loop cs2.
Proof.
  induction cs1 as [|i cs1 IH]; simpl; [reflexivity|].
  destruct (combination_hasFp16Hdr i); [reflexivity | exact IH].
Qed.

End Coverage.

(** ** The further properties at concrete descriptors *)

Lemma read_first_of_two_descriptors :
  exists handle st',
    android_hardware_OverlayProperties_read 1 two_descriptor_stream_state =
      Some (handle, st') /\
    handle <> nullptr /\
    nativeHeap st' =
      <[handle := two_combination_descriptor]>
        (nativeHeap two_descriptor_stream_state) /\
    parcels st' !! 1 =
      Some (OverlayProperties_fields cross_combination_descriptor).
Proof.
  destruct (read_success_gives_fresh_object
              (par := OverlayProperties_Parcelable)
              two_descriptor_stream_state 1 two_descriptor_stream
              ltac:(discriminate) ltac:(reflexivity) ltac:(reflexivity))
    as (handle & st' & Hread & Hnn & _ & Hheap & Hparcels & _).
  exists handle, st'. split; [exact Hread|]. split; [exact Hnn|].
  split; [exact Hheap|]. rewrite Hparcels. reflexivity.
Defined.

Lemma read_null_reference_raises :
  android_hardware_OverlayProperties_read
    (par := OverlayProperties_Parcelable) 0 initial_state =
    Some (0, set_pendingException (Some NullPointerException) initial_state).
Proof.
  apply (proj2 (absent_channel_raises_and_does_nothing_else
                  (par := OverlayProperties_Parcelable) initial_state 0
                  ltac:(left; reflexivity))).
Defined.

Lemma failed_write_is_not_reported :
  exists st',
    android_hardware_OverlayProperties_write
      (par := failing_Parcelable) 7 1 two_combination_state = Some (tt, st') /\
    pendingException st' = None /\
    parcels st' !! 1 = Some [PBool false].
Proof.
  destruct (write_changes_only_its_channel (par := failing_Parcelable)
              two_combination_state 7 1 two_combination_descriptor []
              ltac:(discriminate) ltac:(discriminate)
              ltac:(reflexivity) ltac:(reflexivity))
    as (st' & Hwrite & _ & Hexc & Hch & _).
  exists st'. split; [exact Hwrite|]. split; [exact Hexc | exact Hch].
Defined.

Lemma read_then_destroy_two_descriptors :
  exists handle st' st'',
    android_hardware_OverlayProperties_read
      (par := OverlayProperties_Parcelable) 1 two_descriptor_stream_state =
      Some (handle, st') /\
    destroyOverlayProperties handle st' = Some (tt, st'') /\
    nativeHeap st'' = nativeHeap two_descriptor_stream_state.
Proof.
  destruct (read_then_destroy_restores_heap
              (par := OverlayProperties_Parcelable)
              two_descriptor_stream_state 1 two_descriptor_stream
              ltac:(discriminate) ltac:(reflexivity) ltac:(reflexivity))
    as (handle & st' & st'' & Hread & Hdestroy & Hheap & _).
  exists handle, st', st''. auto.
Defined.

Lemma destroy_then_query_undefined :
  exists st',
    destroyOverlayProperties 7 two_combination_state = Some (tt, st') /\
    android_hardware_OverlayProperties_supportFp16ForHdr
      (hal := android_hal) 7 st' = None.
Proof.
  destruct (proj2 (destroy_removes_exactly_its_object (hal := android_hal)
                     two_combination_state)
              7 two_combination_descriptor
              ltac:(discriminate) ltac:(reflexivity))
    as (st' & Hdestroy & _ & _ & _ & _ & _ & Hquery & _).
  exists st'. split; [exact Hdestroy | exact Hquery].
Defined.

Lemma read_two_descriptors :
  exists handle1 st1 handle2 st2,
    android_hardware_OverlayProperties_read 1 two_descriptor_stream_state =
      Some (handle1, st1) /\
    android_hardware_OverlayProperties_read 1 st1 = Some (handle2, st2) /\
    handle1 <> handle2 /\
    nativeHeap st2 !! handle1 = Some two_combination_descriptor /\
    nativeHeap st2 !! handle2 = Some cross_combination_descriptor.
Proof.
  destruct (two_reads_give_distinct_objects
              (par := OverlayProperties_Parcelable)
              two_descriptor_stream_state 1 two_descriptor_stream
              (OverlayProperties_fields cross_combination_descriptor) []
              two_combination_descriptor cross_combination_descriptor
              ltac:(discriminate) ltac:(reflexivity)
              ltac:(reflexivity) ltac:(reflexivity))
    as (handle1 & st1 & handle2 & st2 & H1 & H2 & Hne & Hl1 & Hl2 & _).
  exists handle1, st1, handle2, st2. auto.
Defined.

Lemma read_then_query_two_combinations :
  exists handle st',
    android_hardware_OverlayProperties_read 1 two_descriptor_stream_state =
      Some (handle, st') /\
    android_hardware_OverlayProperties_supportMixedColorSpaces handle st' =
      Some (true, st') /\
    android_hardware_OverlayProperties_supportFp16ForHdr
      (hal := android_hal) handle st' = Some (true, st').
Proof.
  apply (read_then_queries (hal := android_hal)
           (par := OverlayProperties_Parcelable)
           two_descriptor_stream_state 1 two_descriptor_stream
           (OverlayProperties_fields cross_combination_descriptor)
           two_combination_descriptor
           ltac:(discriminate) ltac:(reflexivity) ltac:(reflexivity)).
Defined.

Lemma std_find_second_position :
  [5; 22; 7; 22] !! std.find [5; 22; 7; 22] 22 = Some 22.
Proof.
  apply (proj2 (proj2 (std_find_first_occurrence [5; 22; 7; 22] 22))).
  vm_compute. lia.
Defined.

Lemma static_cast_int32_negative : static_cast_int32 (-5) = -5.
Proof.
  apply (proj2 (proj2 (proj2 (static_cast_int32_wraps (-5))))).
  unfold is_int32, INT32_MAX. lia.
Defined.

(** Inclusion of one concrete vector in another. *)
Ltac solve_included :=
  intros x; rewrite ?elem_of_cons, ?elem_of_nil; tauto.

Lemma merged_descriptor_covers :
  OverlayProperties_covers two_combination_descriptor merged_descriptor.
Proof.
  intros c Hc. eexists. split; [left|].
  unfold Combination_covers.
  apply elem_of_cons in Hc as [->|Hc]; simpl.
  - split; solve_included.
  - apply list_elem_of_singleton in Hc as ->. simpl. split; solve_included.
Qed.

Lemma supportFp16ForHdr_merged_descriptor :
  android_hardware_OverlayProperties_supportFp16ForHdr
    (hal := android_hal) 9 merged_state = Some (true, merged_state).
Proof.
  apply (supportFp16ForHdr_monotone (hal := android_hal)
           two_combination_state merged_state 7 9
           two_combination_descriptor merged_descriptor
           ltac:(discriminate) ltac:(discriminate)
           ltac:(reflexivity) ltac:(reflexivity)
           merged_descriptor_covers ltac:(reflexivity)).
Defined.

Lemma repeated_descriptor_covers :
  OverlayProperties_covers two_combination_descriptor repeated_descriptor /\
  OverlayProperties_covers repeated_descriptor two_combination_descriptor.
Proof.
  split; intros c Hc; simpl in Hc.
  - apply elem_of_cons in Hc as [->|Hc].
    + eexists. split; [right; left|]. split; simpl; solve_included.
    + apply list_elem_of_singleton in Hc as ->.
      eexists. split; [left|]. split; simpl; solve_included.
  - apply elem_of_cons in Hc as [->|Hc].
    + eexists. split; [right; left|]. split; simpl; solve_included.
    + apply elem_of_cons in Hc as [->|Hc].
      * eexists. split; [left|]. split; simpl; solve_included.
      * apply list_elem_of_singleton in Hc as ->.
        eexists. split; [right; left|]. split; simpl; solve_included.
Qed.

Lemma supportFp16ForHdr_repeated_descriptor :
  exists b,
    android_hardware_OverlayProperties_supportFp16ForHdr
      (hal := android_hal) 7 two_combination_state =
      Some (b, two_combination_state) /\
    android_hardware_OverlayProperties_supportFp16ForHdr
      (hal := android_hal) 9 repeated_state = Some (b, repeated_state).
Proof.
  apply (supportFp16ForHdr_ignores_repetition (hal := android_hal)
           two_combination_state repeated_state 7 9
           two_combination_descriptor repeated_descriptor
           ltac:(discriminate) ltac:(discriminate)
           ltac:(reflexivity) ltac:(reflexivity)
           (proj1 repeated_descriptor_covers)
           (proj2 repeated_descriptor_covers)).
Defined.
